(** * BookYourBooth: booking controller and quota accounting

    A shallow embedding of the booking controller (create / get / update /
    delete booking), of the [Booking] model's [pre('save')] middleware and of
    the exhibition controller's [deleteExhibition], over a store made of two
    MongoDB collections, followed by the properties of the booth-quota
    accounting.

    Conventions of the embedding:
    - a collection is a finite map from [_id] to document ([gmap]);
    - an ObjectId is a natural number; [req.user.id] (string) and
      [req.user._id] (ObjectId) denote the same value;
    - dates are calendar days (an integer day number): the only comparison
      the code makes is [dayjs(..).isBefore(dayjs(), 'day')];
    - [amount] and the quota counters are integers; a request field that is
      absent ([undefined]) is [None];
    - an [await]ed model call that throws is a value of type [Error + _];
      the controller's [catch] block is the match on [inl];
    - the clock ([today]) and the ObjectId given to a new document ([newId])
      are inputs of the operation that uses them. *)

From Stdlib Require Import ZArith Lia.
From stdpp Require Import base option numbers strings pretty gmap fin_maps.

Open Scope Z_scope.

(** ** JavaScript helpers *)

(** [hay.includes(needle)] on strings. *)
Fixpoint includes (hay needle : string) : bool :=
  String.prefix needle hay ||
  match hay with
  | EmptyString => false
  | String _ rest => includes rest needle
  end.

(** [x > y] where [x] may be [undefined]: [undefined > y] is [false]. *)
Definition js_gt (x : option Z) (y : Z) : bool :=
  match x with
  | Some v => y <? v
  | None => false
  end.

(** [t + x > y] where [x] may be [undefined]: [t + undefined] is [NaN] and
    [NaN > y] is [false]. *)
Definition js_add_gt (t : Z) (x : option Z) (y : Z) : bool :=
  match x with
  | Some v => y <? t + v
  | None => false
  end.

(** [x || d] on numbers: [undefined] and [0] are falsy. *)
Definition js_or_num (x : option Z) (d : Z) : Z :=
  match x with
  | Some v => if v =? 0 then d else v
  | None => d
  end.

(** ** Data model (models/Exhibition.js, models/Booking.js) *)

Abbreviation ObjectId := nat (only parsing).

Inductive BoothType : Set := small | big.

Inductive Role : Set := admin | member.

Record Exhibition : Set := {
  name : string;
  description : string;
  venue : string;
  startDate : Z;
  durationDay : Z;
  smallBoothQuota : Z;
  bigBoothQuota : Z;
  posterPicture : string
}.

Record Booking : Set := {
  user : ObjectId;
  exhibition : ObjectId;
  boothType : BoothType;
  amount : Z
}.

(** The two collections. *)
Record DB : Type := {
  exhibitions : gmap nat Exhibition;
  bookings : gmap nat Booking
}.

(** The authenticated caller, [req.user]. *)
Record Principal : Set := {
  user_id : ObjectId;
  user_role : Role
}.

(** An error thrown by a model call: [error.code] and [error.message]. *)
Record Error : Set := {
  code : option Z;
  err_message : string
}.

(** A booking with its [exhibition] path populated. *)
Record PopulatedBooking : Set := {
  pb_id : ObjectId;
  pb_booking : Booking;
  pb_exhibition : option Exhibition
}.

(** What [res.status(..).json(..)] sends. *)
Record Response : Set := {
  status : Z;
  success : bool;
  message : option string;
  data : option PopulatedBooking
}.

(** The error kinds of the design, by HTTP status. The controller answers
    401 where the design says [Forbidden]. *)
Inductive ErrorKind : Set := NotFound | Forbidden | BadRequest | Internal.

Definition kind_of_status (s : Z) : option ErrorKind :=
  match s with
  | 400 => Some BadRequest
  | 401 => Some Forbidden
  | 403 => Some Forbidden
  | 404 => Some NotFound
  | 500 => Some Internal
  | _ => None
  end.

Definition fails_with (k : ErrorKind) (r : Response) : Prop :=
  kind_of_status (status r) = Some k.

Definition failure (s : Z) (msg : string) : Response :=
  {| status := s; success := false; message := Some msg; data := None |}.

Definition server_error : Response := failure 500 "Server Error".

Definition BoothType_eqb (a b : BoothType) : bool :=
  match a, b with
  | small, small | big, big => true
  | _, _ => false
  end.

Definition boothType_name (t : BoothType) : string :=
  match t with small => "small" | big => "big" end.

(** [['small', 'big'].includes(s)], giving the enum value when it holds. *)
Definition parse_boothType (s : option string) : option BoothType :=
  match s with
  | Some v =>
      if String.eqb v "small" then Some small
      else if String.eqb v "big" then Some big
      else None
  | None => None
  end.

(** The quota counter of an exhibition for a booth type. The controller
    writes [t === 'small' ? e.smallBoothQuota : e.bigBoothQuota]. *)
Definition quota (t : BoothType) (e : Exhibition) : Z :=
  match t with
  | small => smallBoothQuota e
  | big => bigBoothQuota e
  end.

(** [e.smallBoothQuota += d] or [e.bigBoothQuota += d], by booth type. *)
Definition add_quota (t : BoothType) (d : Z) (e : Exhibition) : Exhibition :=
  match t with
  | small =>
      {| name := name e; description := description e; venue := venue e;
         startDate := startDate e; durationDay := durationDay e;
         smallBoothQuota := smallBoothQuota e + d;
         bigBoothQuota := bigBoothQuota e;
         posterPicture := posterPicture e |}
  | big =>
      {| name := name e; description := description e; venue := venue e;
         startDate := startDate e; durationDay := durationDay e;
         smallBoothQuota := smallBoothQuota e;
         bigBoothQuota := bigBoothQuota e + d;
         posterPicture := posterPicture e |}
  end.

(** ** Aggregation

    [Booking.aggregate([{$match: ..}, {$group: {_id: null, total: {$sum:
    '$amount'}}}])] followed by [r.length > 0 ? r[0].total : 0]: the sum of
    [amount] over the matching documents, 0 when there is none. *)
Definition sum_amount (matches : nat → Booking → bool) (bs : gmap nat Booking) : Z :=
  map_fold (λ j b total, if matches j b then amount b + total else total) 0 bs.

(** [$match: {exhibition: e, boothType: t}] *)
Definition match_type (e : ObjectId) (t : BoothType) : nat → Booking → bool :=
  λ _ b, Nat.eqb (exhibition b) e && BoothType_eqb (boothType b) t.

(** [$match: {user: u, exhibition: e}] *)
Definition match_user (u e : ObjectId) : nat → Booking → bool :=
  λ _ b, Nat.eqb (user b) u && Nat.eqb (exhibition b) e.

(** [$match: {user: u, exhibition: e, _id: {$ne: i}}] *)
Definition match_user_except (u e i : ObjectId) : nat → Booking → bool :=
  λ j b, Nat.eqb (user b) u && Nat.eqb (exhibition b) e && negb (Nat.eqb j i).

(** [BookingSchema.statics.checkTotalBooths] *)
Definition checkTotalBooths (userId exhibitionId : ObjectId) (bs : gmap nat Booking) : Z :=
  sum_amount (match_user userId exhibitionId) bs.

(** ** Persistence of a booking (models/Booking.js)

    A Mongoose document in memory: its [_id], whether it is new, the value
    [amount] had when the document was loaded (what [isModified('amount')]
    compares with) and its current fields. *)
Record BookingDoc : Set := {
  _id : ObjectId;
  isNew : bool;
  loadedAmount : Z;
  fields : Booking
}.

(** [this.isModified('amount')]: every set path of a new document is
    modified; on a loaded document, assigning the value it already has does
    not mark the path. *)
Definition isModified_amount (doc : BookingDoc) : bool :=
  isNew doc || negb (amount (fields doc) =? loadedAmount doc).

Definition cap_error : Error :=
  {| code := None;
     err_message := "Total number of booths cannot exceed 6 per exhibition" |}.

Definition booking_validation_error : Error :=
  {| code := None;
     err_message := "Booking validation failed: amount: Booking amount must be at least 1" |}.

Definition booking_required_error : Error :=
  {| code := None;
     err_message := "Booking validation failed: amount: Path `amount` is required." |}.

Definition duplicate_key_error : Error :=
  {| code := Some 11000;
     err_message := "E11000 duplicate key error collection" |}.

Definition exhibition_validation_error : Error :=
  {| code := None;
     err_message := "Exhibition validation failed: booth quota cannot be negative" |}.

(** [BookingSchema.pre('save', ..)]: [None] is [next()], [Some e] is
    [next(e)]. Mongoose honours the first call of [next] only, so the
    [next()] that follows [next(new Error(..))] has no effect. *)
Definition preSave (doc : BookingDoc) (bs : gmap nat Booking) : option Error :=
  if negb (isModified_amount doc) then None
  else
    let b := fields doc in
    let otherBookingsTotal :=
      sum_amount (match_user_except (user b) (exhibition b) (_id doc)) bs in
    let newTotal := otherBookingsTotal + amount b in
    if 6 <? newTotal then Some cap_error else None.

(** [doc.save()] on a booking: schema validation ([amount] has [min: 1];
    the other paths are valid by their types), then the [pre('save')]
    middleware, then the write. Inserting a new document under an [_id]
    already in the collection is the driver's duplicate-key error. *)
Definition save_booking (doc : BookingDoc) (bs : gmap nat Booking)
    : Error + gmap nat Booking :=
  if amount (fields doc) <? 1 then inl booking_validation_error
  else
    match preSave doc bs with
    | Some e => inl e
    | None =>
        if isNew doc then
          match bs !! _id doc with
          | Some _ => inl duplicate_key_error
          | None => inr (<[_id doc := fields doc]> bs)
          end
        else inr (<[_id doc := fields doc]> bs)
    end.

(** [exhibition.save()]: the two quota paths have [min: 0]; the booking
    controller modifies no other path of an exhibition. *)
Definition save_exhibition (i : ObjectId) (e : Exhibition)
    (exs : gmap nat Exhibition) : Error + gmap nat Exhibition :=
  if (smallBoothQuota e <? 0) || (bigBoothQuota e <? 0)
  then inl exhibition_validation_error
  else inr (<[i := e]> exs).

(** [Booking.findOne(query)] with [query = {_id: i}], and [query.user =
    req.user.id] added when the caller is not an admin. *)
Definition findOne (p : Principal) (i : ObjectId) (bs : gmap nat Booking)
    : option Booking :=
  match bs !! i with
  | Some b =>
      match user_role p with
      | admin => Some b
      | member => if Nat.eqb (user b) (user_id p) then Some b else None
      end
  | None => None
  end.

(** [Booking.findById(i).populate('user', 'name email').populate('exhibition')]
    (the user collection is outside this model). *)
Definition populated (i : ObjectId) (db : DB) : option PopulatedBooking :=
  match bookings db !! i with
  | Some b =>
      Some {| pb_id := i; pb_booking := b;
              pb_exhibition := exhibitions db !! exhibition b |}
  | None => None
  end.

Definition ok (s : Z) (i : ObjectId) (db : DB) : Response :=
  {| status := s; success := true; message := None; data := populated i db |}.

Definition ok_message (msg : string) : Response :=
  {| status := 200; success := true; message := Some msg; data := None |}.

(** ** The booking controller (controllers/booking.js) *)

(** [req.body] of a create request. *)
Record CreateBody : Set := {
  body_exhibition : ObjectId;
  body_boothType : option string;
  body_amount : option Z
}.

(** [req.body] of an update request. *)
Record UpdateBody : Set := {
  upd_boothType : option string;
  upd_amount : option Z
}.

(** [exports.getBooking] *)
Definition getBooking (p : Principal) (i : ObjectId) (db : DB) : Response :=
  match bookings db !! i with
  | None =>
      failure 404 ("Booking not found with id of " +:+ pretty i)
  | Some booking =>
      if negb (Nat.eqb (user booking) (user_id p))
         && match user_role p with admin => false | member => true end
      then failure 401 "Not authorized to access this booking"
      else ok 200 i db
  end.

(** The [catch] block of [createBooking]. *)
Definition createBooking_catch (error : Error) : Response :=
  match code error with
  | Some 11000 => failure 400 "Invalid booking request"
  | _ => server_error
  end.

(** [exports.createBooking] *)
Definition createBooking (today : Z) (newId : ObjectId) (p : Principal)
    (body : CreateBody) (db : DB) : Response * DB :=
  match exhibitions db !! body_exhibition body with
  | None =>
      (failure 404 ("Exhibition not found with id of "
                      +:+ pretty (body_exhibition body)), db)
  | Some exhibition0 =>
      match parse_boothType (body_boothType body) with
      | None => (failure 400 "Booth type must be either small or big", db)
      | Some t =>
          if startDate exhibition0 <? today then
            (failure 400 "Cannot book for an exhibition that has already started", db)
          else
            let availableQuota := quota t exhibition0 in
            let totalBooked :=
              sum_amount (match_type (body_exhibition body) t) (bookings db) in
            if js_gt (body_amount body) availableQuota then
              (failure 400 ("Not enough " +:+ boothType_name t +:+ " booths available"), db)
            else
              let userTotalBooths :=
                sum_amount (match_user (user_id p) (body_exhibition body))
                           (bookings db) in
              if js_add_gt userTotalBooths (body_amount body) 6 then
                (failure 400 "Total number of booths per exhibition cannot exceed 6", db)
              else
                match body_amount body with
                | None => (createBooking_catch booking_required_error, db)
                | Some a =>
                    let doc :=
                      {| _id := newId; isNew := true; loadedAmount := a;
                         fields := {| user := user_id p;
                                      exhibition := body_exhibition body;
                                      boothType := t; amount := a |} |} in
                    match save_booking doc (bookings db) with
                    | inl error => (createBooking_catch error, db)
                    | inr bs' =>
                        let exhibition1 := add_quota t (- a) exhibition0 in
                        match save_exhibition (body_exhibition body)
                                exhibition1 (exhibitions db) with
                        | inl error =>
                            (createBooking_catch error,
                             {| exhibitions := exhibitions db; bookings := bs' |})
                        | inr exs' =>
                            let db' := {| exhibitions := exs'; bookings := bs' |} in
                            (ok 201 newId db', db')
                        end
                    end
                end
      end
  end.

(** [exports.deleteBooking] *)
Definition deleteBooking (p : Principal) (i : ObjectId) (db : DB)
    : Response * DB :=
  match findOne p i (bookings db) with
  | None => (failure 404 "Booking not found", db)
  | Some booking =>
      match exhibitions db !! exhibition booking with
      | Some exhibition0 =>
          let exhibition1 :=
            add_quota (boothType booking) (amount booking) exhibition0 in
          match save_exhibition (exhibition booking) exhibition1
                  (exhibitions db) with
          | inl _ => (server_error, db)
          | inr exs' =>
              (ok_message "Booking deleted successfully",
               {| exhibitions := exs'; bookings := delete i (bookings db) |})
          end
      | None =>
          (ok_message "Booking deleted successfully",
           {| exhibitions := exhibitions db;
              bookings := delete i (bookings db) |})
      end
  end.

(** The [catch] block of [updateBooking]. *)
Definition updateBooking_catch (error : Error) : Response :=
  if includes (err_message error) "Total number of booths cannot exceed 6"
  then failure 400 (err_message error)
  else server_error.

(** [exports.updateBooking] *)
Definition updateBooking (p : Principal) (i : ObjectId) (body : UpdateBody)
    (db : DB) : Response * DB :=
  match findOne p i (bookings db) with
  | None => (failure 404 "Booking not found", db)
  | Some booking =>
      match parse_boothType (upd_boothType body) with
      | None => (failure 400 "Booth type must be either small or big", db)
      | Some requested =>
          match exhibitions db !! exhibition booking with
          | None => (failure 404 "Exhibition not found", db)
          | Some exhibition0 =>
              let exhibition1 :=
                add_quota (boothType booking) (amount booking) exhibition0 in
              (* req.body.boothType || booking.boothType: the left operand
                 is 'small' or 'big' here, hence truthy *)
              let newBoothType := requested in
              let newAmount := js_or_num (upd_amount body) (amount booking) in
              let quotaToCheck := quota newBoothType exhibition1 in
              if quotaToCheck <? newAmount then
                (failure 400 ("Not enough " +:+ boothType_name newBoothType
                                +:+ " booths available"), db)
              else
                let exhibition2 := add_quota newBoothType (- newAmount) exhibition1 in
                match save_exhibition (exhibition booking) exhibition2
                        (exhibitions db) with
                | inl error => (updateBooking_catch error, db)
                | inr exs' =>
                    let doc :=
                      {| _id := i; isNew := false;
                         loadedAmount := amount booking;
                         fields := {| user := user booking;
                                      exhibition := exhibition booking;
                                      boothType := newBoothType;
                                      amount := newAmount |} |} in
                    match save_booking doc (bookings db) with
                    | inl error =>
                        (updateBooking_catch error,
                         {| exhibitions := exs'; bookings := bookings db |})
                    | inr bs' =>
                        let db' := {| exhibitions := exs'; bookings := bs' |} in
                        (ok 200 i db', db')
                    end
                end
          end
      end
  end.

(** ** The exhibition controller (controllers/exhibitions.js) *)

(** [exports.deleteExhibition]: [Exhibition.findByIdAndDelete]. The schema
    registers no middleware on removal. *)
Definition deleteExhibition (i : ObjectId) (db : DB) : Response * DB :=
  match exhibitions db !! i with
  | None => (failure 404 "Exhibition not found", db)
  | Some _ =>
      (ok_message "Exhibition deleted",
       {| exhibitions := delete i (exhibitions db); bookings := bookings db |})
  end.

(** ** Sequences of booking operations *)

Inductive Op : Set :=
  | Create (today : Z) (newId : ObjectId) (p : Principal) (body : CreateBody)
  | Update (p : Principal) (i : ObjectId) (body : UpdateBody)
  | Delete (p : Principal) (i : ObjectId).

Definition step (op : Op) (db : DB) : Response * DB :=
  match op with
  | Create today newId p body => createBooking today newId p body db
  | Update p i body => updateBooking p i body db
  | Delete p i => deleteBooking p i db
  end.

(** The store after a sequence of requests, served one after the other. *)
Definition run (ops : list Op) (db : DB) : DB :=
  foldl (λ d op, (step op d).2) db ops.

(** The responses of a sequence of requests, in order. *)
Fixpoint responses (ops : list Op) (db : DB) : list Response :=
  match ops with
  | [] => []
  | op :: rest => (step op db).1 :: responses rest (step op db).2
  end.

(** ** Quantities and predicates of the properties *)

(** What one document adds to a sum. *)
Definition contribution (P : nat → Booking → bool) (j : nat) (b : Booking) : Z :=
  if P j b then amount b else 0.

(** The documents in the store satisfy the validators of their schemas:
    [min: 0] on both quota counters, [min: 1] on [amount]. *)
Definition valid_exhibition (e : Exhibition) : Prop :=
  0 ≤ smallBoothQuota e ∧ 0 ≤ bigBoothQuota e.

Definition valid_bookings (bs : gmap nat Booking) : Prop :=
  ∀ j b, bs !! j = Some b → 1 ≤ amount b.

Definition valid_db (db : DB) : Prop :=
  (∀ i e, exhibitions db !! i = Some e → valid_exhibition e)
  ∧ valid_bookings (bookings db).

(** The cap: no (user, exhibition) pair holds more than 6 booths. *)
Definition cap_ok (bs : gmap nat Booking) : Prop :=
  ∀ u e, checkTotalBooths u e bs ≤ 6.

(** Remaining quota of exhibition [i] for type [t] plus the booths of that
    type booked on it: the quantity the accounting is meant to conserve. *)
Definition quota_plus_booked (i : ObjectId) (t : BoothType) (db : DB) : option Z :=
  match exhibitions db !! i with
  | Some e => Some (quota t e + sum_amount (match_type i t) (bookings db))
  | None => None
  end.

(** The parts of an update of booking [b] on exhibition [e]: the amount
    asked for ([req.body.amount || booking.amount]), the exhibition with
    the old reservation restored, the exhibition and the booking that are
    written for new type [t] and amount [a]. *)
Definition requested_amount (body : UpdateBody) (b : Booking) : Z :=
  js_or_num (upd_amount body) (amount b).

Definition restored (b : Booking) (e : Exhibition) : Exhibition :=
  add_quota (boothType b) (amount b) e.

Definition updated_exhibition (t : BoothType) (a : Z) (b : Booking)
    (e : Exhibition) : Exhibition :=
  add_quota t (- a) (restored b e).

Definition updated_booking (t : BoothType) (a : Z) (b : Booking) : Booking :=
  {| user := user b; exhibition := exhibition b; boothType := t; amount := a |}.

(** Every request of the sequence either succeeds or leaves the store as
    it found it. *)
Fixpoint all_or_nothing (ops : list Op) (db : DB) : Prop :=
  match ops with
  | [] => True
  | op :: rest =>
      (success (step op db).1 = true ∨ (step op db).2 = db)
      ∧ all_or_nothing rest (step op db).2
  end.

(** ** A small store used in the examples *)

Definition expo : Exhibition :=
  {| name := "Expo"; description := "Trade fair"; venue := "Hall A";
     startDate := 100; durationDay := 3;
     smallBoothQuota := 10; bigBoothQuota := 10;
     posterPicture := "https://example.org/expo.png" |}.

Definition alice : Principal := {| user_id := 7; user_role := member |}.
Definition bob : Principal := {| user_id := 8; user_role := member |}.
Definition root : Principal := {| user_id := 1; user_role := admin |}.

(** One exhibition, no booking. *)
Definition fresh_db : DB :=
  {| exhibitions := {[ 1%nat := expo ]}; bookings := ∅ |}.

Definition book (t : string) (a : Z) : CreateBody :=
  {| body_exhibition := 1; body_boothType := Some t; body_amount := Some a |}.

Definition change (t : string) (a : Z) : UpdateBody :=
  {| upd_boothType := Some t; upd_amount := Some a |}.

(** Alice holds two bookings of 3 small booths each (ids 1 and 2). *)
Definition two_bookings_db : DB :=
  run [Create 50 1 alice (book "small" 3); Create 50 2 alice (book "small" 3)]
      fresh_db.

(** ** Reading bookings (controllers/booking.js) *)

(** What [getBookings] sends: [count] and the documents found, each with
    its exhibition populated. The documents are given as a collection keyed
    by [_id]; the order of the array (newest first, by the [createdAt]
    timestamp) is not part of this model, whose store holds no
    timestamps. *)
Record BookingList : Type := {
  bl_status : Z;
  bl_success : bool;
  bl_count : nat;
  bl_data : gmap nat PopulatedBooking
}.

(** [exports.getBookings]: the query is [{}] for an admin and
    [{user: req.user.id}] for anyone else. *)
Definition getBookings (p : Principal) (db : DB) : BookingList :=
  let query (b : Booking) : bool :=
    match user_role p with
    | admin => true
    | member => Nat.eqb (user b) (user_id p)
    end in
  let found :=
    map_imap (λ i b,
                if query b
                then Some {| pb_id := i; pb_booking := b;
                             pb_exhibition := exhibitions db !! exhibition b |}
                else None)
             (bookings db) in
  {| bl_status := 200; bl_success := true; bl_count := size found;
     bl_data := found |}.

(** ** Reading and writing exhibitions (controllers/exhibitions.js) *)

(** An exhibition as it is sent, with its virtual [bookings] path: [None]
    when the path is not populated, otherwise the booking documents whose
    [exhibition] is its [_id]. *)
Record ExhibitionView : Type := {
  ev_exhibition : Exhibition;
  ev_bookings : option (gmap nat Booking)
}.

(** [.populate('bookings')] *)
Definition populate_bookings (i : ObjectId) (e : Exhibition) (db : DB)
    : ExhibitionView :=
  {| ev_exhibition := e;
     ev_bookings := Some (filter (λ kb, exhibition kb.2 = i) (bookings db)) |}.

(** What the handlers of one exhibition send. *)
Record ExhibitionResponse : Type := {
  er_status : Z;
  er_success : bool;
  er_message : option string;
  er_data : option ExhibitionView
}.

(** What [getExhibitions] sends. *)
Record ExhibitionList : Type := {
  el_status : Z;
  el_success : bool;
  el_count : nat;
  el_data : gmap nat ExhibitionView
}.

Definition exhibition_failure (s : Z) (msg : string) : ExhibitionResponse :=
  {| er_status := s; er_success := false; er_message := Some msg;
     er_data := None |}.

Definition exhibition_ok (s : Z) (v : ExhibitionView) : ExhibitionResponse :=
  {| er_status := s; er_success := true; er_message := None;
     er_data := Some v |}.

(** [exports.getExhibitions] *)
Definition getExhibitions (db : DB) : ExhibitionList :=
  let found := map_imap (λ i e, Some (populate_bookings i e db))
                        (exhibitions db) in
  {| el_status := 200; el_success := true; el_count := size found;
     el_data := found |}.

(** [exports.getExhibition]. [req.params.id] is [None] when it is not the
    text of an ObjectId: [findById] then throws a cast error of kind
    'ObjectId', which the [catch] block answers with 404. *)
Definition getExhibition (i : option ObjectId) (db : DB) : ExhibitionResponse :=
  match i with
  | None => exhibition_failure 404 "Exhibition not found - Invalid ID"
  | Some i =>
      match exhibitions db !! i with
      | None => exhibition_failure 404 "Exhibition not found"
      | Some e => exhibition_ok 200 (populate_bookings i e db)
      end
  end.

(** [String.prototype.trim], the setter of [trim: true]. Strings are
    sequences of UTF-8 bytes; the white space and line terminators of
    ECMAScript are U+0009 to U+000D, U+0020, U+00A0, U+1680, U+2000 to
    U+200A, U+2028, U+2029, U+202F, U+205F, U+3000 and U+FEFF. *)
Definition bytes (l : list nat) : string :=
  foldr (λ n s, String (Ascii.ascii_of_nat n) s) EmptyString l.

Definition white_space : list string :=
  bytes <$> [ [9%nat]; [10%nat]; [11%nat]; [12%nat]; [13%nat]; [32%nat];
              [194; 160]%nat; [225; 154; 128]%nat;
              [226; 128; 128]%nat; [226; 128; 129]%nat; [226; 128; 130]%nat;
              [226; 128; 131]%nat; [226; 128; 132]%nat; [226; 128; 133]%nat;
              [226; 128; 134]%nat; [226; 128; 135]%nat; [226; 128; 136]%nat;
              [226; 128; 137]%nat; [226; 128; 138]%nat;
              [226; 128; 168]%nat; [226; 128; 169]%nat; [226; 128; 175]%nat;
              [226; 129; 159]%nat; [227; 128; 128]%nat; [239; 187; 191]%nat ].

(** [Some rest] when [s] is [pre] followed by [rest]. *)
Fixpoint strip_prefix (pre s : string) : option string :=
  match pre, s with
  | EmptyString, _ => Some s
  | String a pre', String c s' =>
      if Ascii.eqb a c then strip_prefix pre' s' else None
  | String _ _, EmptyString => None
  end.

(** The string after one leading white-space character of the list, if it
    starts with one. *)
Fixpoint strip_one (spaces : list string) (s : string) : option string :=
  match spaces with
  | [] => None
  | w :: rest =>
      match strip_prefix w s with
      | Some r => Some r
      | None => strip_one rest s
      end
  end.

Fixpoint trim_left (spaces : list string) (fuel : nat) (s : string) : string :=
  match fuel with
  | O => s
  | S fuel' =>
      match strip_one spaces s with
      | Some r => trim_left spaces fuel' r
      | None => s
      end
  end.

Definition trimStart (s : string) : string :=
  trim_left white_space (String.length s) s.

Definition trimEnd (s : string) : string :=
  String.rev (trim_left (String.rev <$> white_space) (String.length s)
                        (String.rev s)).

Definition trim (s : string) : string := trimEnd (trimStart s).

(** [req.body] of the requests that write an exhibition; an absent field
    is [None]. *)
Record ExhibitionBody : Set := {
  eb_name : option string;
  eb_description : option string;
  eb_venue : option string;
  eb_startDate : option Z;
  eb_durationDay : option Z;
  eb_smallBoothQuota : option Z;
  eb_bigBoothQuota : option Z;
  eb_posterPicture : option string
}.

(** [startDate && dayjs(startDate).isBefore(dayjs(), 'day')]. In
    [createExhibition] the test has no [startDate &&]: there an absent
    date is [dayjs(undefined)], the current time, which is not before
    today, so both handlers compute this. *)
Definition startDate_passed (today : Z) (startDate : option Z) : bool :=
  match startDate with
  | Some d => d <? today
  | None => false
  end.

(** The validation error of an exhibition document; its message, which
    lists the failing paths, is reduced to its first words. *)
Definition exhibition_document_error : Error :=
  {| code := None; err_message := "Exhibition validation failed" |}.

(** A required string path: present and not empty. *)
Definition required_string (x : option string) : option string :=
  match x with
  | Some v => if String.eqb v "" then None else Some v
  | None => None
  end.

(** A number path with [min: m], when present: [Some] of the value when
    the validator passes. *)
Definition min_number (m : Z) (x : option Z) : option Z :=
  match x with
  | Some v => if v <? m then None else Some v
  | None => None
  end.

(** Casting and validating the document given to [Exhibition.create]:
    every path is required, [name] is trimmed first, [durationDay] has
    [min: 1] and the two quotas [min: 0]. *)
Definition new_exhibition (body : ExhibitionBody) : option Exhibition :=
  match required_string (trim <$> eb_name body),
        required_string (eb_description body),
        required_string (eb_venue body),
        eb_startDate body,
        min_number 1 (eb_durationDay body),
        min_number 0 (eb_smallBoothQuota body),
        min_number 0 (eb_bigBoothQuota body),
        required_string (eb_posterPicture body) with
  | Some n, Some d, Some v, Some s, Some dd, Some sq, Some bq, Some pp =>
      Some {| name := n; description := d; venue := v; startDate := s;
              durationDay := dd; smallBoothQuota := sq; bigBoothQuota := bq;
              posterPicture := pp |}
  | _, _, _, _, _, _, _, _ => None
  end.

(** [exports.createExhibition]. The handler has no [try]: what
    [Exhibition.create] throws is the result ([inl]), no response is
    sent. *)
Definition createExhibition (today : Z) (newId : ObjectId)
    (body : ExhibitionBody) (db : DB) : (Error + ExhibitionResponse) * DB :=
  if startDate_passed today (eb_startDate body) then
    (inr (exhibition_failure 400
            "Start date cannot be earlier than current date"), db)
  else
    match new_exhibition body with
    | None => (inl exhibition_document_error, db)
    | Some e =>
        match exhibitions db !! newId with
        | Some _ => (inl duplicate_key_error, db)
        | None =>
            let db' := {| exhibitions := <[newId := e]> (exhibitions db);
                          bookings := bookings db |} in
            (inr (exhibition_ok 201 {| ev_exhibition := e; ev_bookings := None |}),
             db')
        end
    end.

(** One path of an update: absent, refused by its validator, or the value
    to set. *)
Inductive Change (A : Type) : Type :=
  | Keep
  | Refused
  | SetTo (v : A).
Arguments Keep {A}.
Arguments Refused {A}.
Arguments SetTo {A} v.

(** A string path of [$set]: the required validator refuses the empty
    string. *)
Definition change_string (x : option string) : Change string :=
  match x with
  | None => Keep
  | Some v => if String.eqb v "" then Refused else SetTo v
  end.

(** A number path of [$set] with [min: m]. *)
Definition change_number (m : Z) (x : option Z) : Change Z :=
  match x with
  | None => Keep
  | Some v => if v <? m then Refused else SetTo v
  end.

Definition is_refused {A} (c : Change A) : bool :=
  match c with Refused => true | _ => false end.

Definition apply_change {A} (c : Change A) (old : A) : A :=
  match c with SetTo v => v | _ => old end.

(** The update validators ([runValidators: true]) on the paths present in
    the body. *)
Definition update_refused (body : ExhibitionBody) : bool :=
  is_refused (change_string (trim <$> eb_name body))
  || is_refused (change_string (eb_description body))
  || is_refused (change_string (eb_venue body))
  || is_refused (change_number 1 (eb_durationDay body))
  || is_refused (change_number 0 (eb_smallBoothQuota body))
  || is_refused (change_number 0 (eb_bigBoothQuota body))
  || is_refused (change_string (eb_posterPicture body)).

(** The document after [$set] of the paths present in the body. *)
Definition set_fields (body : ExhibitionBody) (e : Exhibition) : Exhibition :=
  {| name := apply_change (change_string (trim <$> eb_name body)) (name e);
     description := apply_change (change_string (eb_description body))
                                 (description e);
     venue := apply_change (change_string (eb_venue body)) (venue e);
     startDate := default (startDate e) (eb_startDate body);
     durationDay := apply_change (change_number 1 (eb_durationDay body))
                                 (durationDay e);
     smallBoothQuota := apply_change (change_number 0 (eb_smallBoothQuota body))
                                     (smallBoothQuota e);
     bigBoothQuota := apply_change (change_number 0 (eb_bigBoothQuota body))
                                   (bigBoothQuota e);
     posterPicture := apply_change (change_string (eb_posterPicture body))
                                   (posterPicture e) |}.

(** [exports.updateExhibition]: [findByIdAndUpdate(id, req.body, {new:
    true, runValidators: true})]. The update is cast and validated before
    the query is sent; the handler has no [try], so a validation error is
    the result ([inl]). *)
Definition updateExhibition (today : Z) (i : ObjectId)
    (body : ExhibitionBody) (db : DB) : (Error + ExhibitionResponse) * DB :=
  if startDate_passed today (eb_startDate body) then
    (inr (exhibition_failure 400
            "Start date cannot be earlier than current date"), db)
  else if update_refused body then (inl exhibition_document_error, db)
  else
    match exhibitions db !! i with
    | None => (inr (exhibition_failure 404 "Exhibition not found"), db)
    | Some e =>
        let e' := set_fields body e in
        (inr (exhibition_ok 200 {| ev_exhibition := e'; ev_bookings := None |}),
         {| exhibitions := <[i := e']> (exhibitions db);
            bookings := bookings db |})
    end.

(** ** Sequences of requests of both controllers *)

Inductive Request : Set :=
  | OnBooking (op : Op)
  | CreateExhibition (today : Z) (newId : ObjectId) (body : ExhibitionBody)
  | UpdateExhibition (today : Z) (i : ObjectId) (body : ExhibitionBody)
  | DeleteExhibition (i : ObjectId).

(** The store after one request. *)
Definition serve (r : Request) (db : DB) : DB :=
  match r with
  | OnBooking op => (step op db).2
  | CreateExhibition today newId body => (createExhibition today newId body db).2
  | UpdateExhibition today i body => (updateExhibition today i body db).2
  | DeleteExhibition i => (deleteExhibition i db).2
  end.

Definition serve_all (rs : list Request) (db : DB) : DB :=
  foldl (λ d r, serve r d) db rs.

(** Two versions of an exhibition that differ at most in their quota
    counters. *)
Definition same_details (e e' : Exhibition) : Prop :=
  name e' = name e ∧ description e' = description e ∧ venue e' = venue e
  ∧ startDate e' = startDate e ∧ durationDay e' = durationDay e
  ∧ posterPicture e' = posterPicture e.

(** A response of the booking controller is well formed when its status is
    one of 200, 201, 400, 404 and 500 and its [success] flag is set exactly
    for 200 and 201. *)
Definition well_formed (r : Response) : Prop :=
  (status r = 200 ∨ status r = 201 ∨ status r = 400 ∨ status r = 404
   ∨ status r = 500)
  ∧ (success r = true ↔ status r = 200 ∨ status r = 201).

(** An update request with no field at all. *)
Definition empty_body : ExhibitionBody :=
  {| eb_name := None; eb_description := None; eb_venue := None;
     eb_startDate := None; eb_durationDay := None;
     eb_smallBoothQuota := None; eb_bigBoothQuota := None;
     eb_posterPicture := None |}.

(** A body for a new exhibition starting on day [d]. *)
Definition fair (d : Z) : ExhibitionBody :=
  {| eb_name := Some "  Book fair "; eb_description := Some "Books";
     eb_venue := Some "Hall B"; eb_startDate := Some d;
     eb_durationDay := Some 2; eb_smallBoothQuota := Some 4;
     eb_bigBoothQuota := Some 0;
     eb_posterPicture := Some "https://example.org/fair.png" |}.

(** ** [createBooking] around its write

    The handler awaits each model call and runs in no transaction and
    under no lock, so another request may be served between two of its
    awaits. [createBooking_checks] is the handler up to the insert: every
    read and every check, the aggregate of the [pre('save')] middleware
    included. [createBooking_writes] is the rest, run on the store as it is
    by then: the insert, [exhibition.save()] of the document read at the
    start, and the answer. Served without interruption the two make
    [createBooking]. *)

(** What a cleared request carries from its checks to its writes: the
    exhibition document it read, the booth type and the amount. *)
Record Cleared : Set := {
  adm_exhibition : Exhibition;
  adm_boothType : BoothType;
  adm_amount : Z
}.

Definition createBooking_checks (today : Z) (newId : ObjectId) (p : Principal)
    (body : CreateBody) (db : DB) : Response + Cleared :=
  match exhibitions db !! body_exhibition body with
  | None =>
      inl (failure 404 ("Exhibition not found with id of "
                          +:+ pretty (body_exhibition body)))
  | Some exhibition0 =>
      match parse_boothType (body_boothType body) with
      | None => inl (failure 400 "Booth type must be either small or big")
      | Some t =>
          if startDate exhibition0 <? today then
            inl (failure 400 "Cannot book for an exhibition that has already started")
          else
            let availableQuota := quota t exhibition0 in
            let totalBooked :=
              sum_amount (match_type (body_exhibition body) t) (bookings db) in
            if js_gt (body_amount body) availableQuota then
              inl (failure 400 ("Not enough " +:+ boothType_name t
                                  +:+ " booths available"))
            else
              let userTotalBooths :=
                sum_amount (match_user (user_id p) (body_exhibition body))
                           (bookings db) in
              if js_add_gt userTotalBooths (body_amount body) 6 then
                inl (failure 400 "Total number of booths per exhibition cannot exceed 6")
              else
                match body_amount body with
                | None => inl (createBooking_catch booking_required_error)
                | Some a =>
                    let doc :=
                      {| _id := newId; isNew := true; loadedAmount := a;
                         fields := {| user := user_id p;
                                      exhibition := body_exhibition body;
                                      boothType := t; amount := a |} |} in
                    if a <? 1 then
                      inl (createBooking_catch booking_validation_error)
                    else
                      match preSave doc (bookings db) with
                      | Some error => inl (createBooking_catch error)
                      | None =>
                          inr {| adm_exhibition := exhibition0;
                                 adm_boothType := t; adm_amount := a |}
                      end
                end
      end
  end.

(** [e.smallBoothQuota = v] or [e.bigBoothQuota = v], by booth type. *)
Definition set_quota (t : BoothType) (v : Z) (e : Exhibition) : Exhibition :=
  match t with
  | small =>
      {| name := name e; description := description e; venue := venue e;
         startDate := startDate e; durationDay := durationDay e;
         smallBoothQuota := v; bigBoothQuota := bigBoothQuota e;
         posterPicture := posterPicture e |}
  | big =>
      {| name := name e; description := description e; venue := venue e;
         startDate := startDate e; durationDay := durationDay e;
         smallBoothQuota := smallBoothQuota e; bigBoothQuota := v;
         posterPicture := posterPicture e |}
  end.

(** What [save] of a loaded document throws when the document is no
    longer in the collection. *)
Definition document_not_found_error : Error :=
  {| code := None; err_message := "No document found for query" |}.

(** The writes of a request that passed its checks. [exhibition.save()] validates the
    document in memory and sends its modified path, the counter of the
    booth type, to the stored document. *)
Definition createBooking_writes (newId : ObjectId) (p : Principal)
    (body : CreateBody) (adm : Cleared) (db : DB) : Response * DB :=
  match bookings db !! newId with
  | Some _ => (createBooking_catch duplicate_key_error, db)
  | None =>
      let t := adm_boothType adm in
      let a := adm_amount adm in
      let bs' := <[newId := {| user := user_id p;
                               exhibition := body_exhibition body;
                               boothType := t; amount := a |}]>
                   (bookings db) in
      let exhibition1 := add_quota t (- a) (adm_exhibition adm) in
      if (smallBoothQuota exhibition1 <? 0) || (bigBoothQuota exhibition1 <? 0)
      then (createBooking_catch exhibition_validation_error,
            {| exhibitions := exhibitions db; bookings := bs' |})
      else
        match exhibitions db !! body_exhibition body with
        | None =>
            (createBooking_catch document_not_found_error,
             {| exhibitions := exhibitions db; bookings := bs' |})
        | Some stored =>
            let db' :=
              {| exhibitions :=
                   <[body_exhibition body := set_quota t (quota t exhibition1)
                                                       stored]>
                     (exhibitions db);
                 bookings := bs' |} in
            (ok 201 newId db', db')
        end
  end.


(** * Properties *)

(** ** Facts about the aggregation *)

Section aggregate.
Implicit Types (P Q : nat → Booking → bool) (bs : gmap nat Booking).

Lemma sum_amount_empty P : sum_amount P ∅ = 0.
Proof. apply map_fold_empty. Qed.

Lemma sum_amount_insert P bs i b :
  bs !! i = None →
  sum_amount P (<[i:=b]> bs) = contribution P i b + sum_amount P bs.
Proof.
  intros Hi. unfold sum_amount, contribution.
  rewrite map_fold_insert_L; [ destruct (P i b); lia | | exact Hi ].
  intros j1 j2 z1 z2 y _ _ _.
  destruct (P j1 z1), (P j2 z2); lia.
Qed.

Lemma sum_amount_delete P bs i b :
  bs !! i = Some b →
  sum_amount P bs = contribution P i b + sum_amount P (delete i bs).
Proof.
  intros Hi.
  rewrite <- (insert_delete_id bs i b Hi) at 1.
  apply sum_amount_insert, lookup_delete_eq.
Qed.

Lemma sum_amount_replace P bs i b b' :
  bs !! i = Some b →
  sum_amount P (<[i:=b']> bs)
  = sum_amount P bs - contribution P i b + contribution P i b'.
Proof.
  intros Hi.
  rewrite <- insert_delete_eq.
  rewrite sum_amount_insert by apply lookup_delete_eq.
  rewrite (sum_amount_delete P bs i b Hi). lia.
Qed.

Lemma sum_amount_ext P Q bs :
  (∀ j b, bs !! j = Some b → P j b = Q j b) →
  sum_amount P bs = sum_amount Q bs.
Proof.
  induction bs as [|i x m Hi IH] using map_ind; intros Hext.
  - by rewrite !sum_amount_empty.
  - rewrite !sum_amount_insert by exact Hi.
    unfold contribution. rewrite (Hext i x) by apply lookup_insert_eq.
    rewrite IH; [ reflexivity | ].
    intros j b Hj. apply Hext.
    rewrite lookup_insert_ne; [ exact Hj | congruence ].
Qed.

(** Excluding one [_id] from the match is summing over the collection
    without that document. *)
Lemma sum_amount_except u e i bs :
  sum_amount (match_user_except u e i) bs
  = sum_amount (match_user u e) (delete i bs).
Proof.
  assert (Hrest : sum_amount (match_user_except u e i) (delete i bs)
                  = sum_amount (match_user u e) (delete i bs)).
  { apply sum_amount_ext. intros j b Hj.
    apply lookup_delete_Some in Hj as [Hne _].
    unfold match_user_except, match_user.
    replace (Nat.eqb j i) with false; [ by rewrite andb_true_r | ].
    symmetry. apply Nat.eqb_neq. congruence. }
  destruct (bs !! i) as [b|] eqn:Hi.
  - rewrite (sum_amount_delete _ bs i b Hi), Hrest.
    unfold contribution, match_user_except.
    rewrite Nat.eqb_refl, andb_false_r. lia.
  - rewrite <- Hrest. by rewrite delete_id.
Qed.
End aggregate.

(** ** Facts about the quota counters and the model calls *)

Lemma quota_add_quota t t' d e :
  quota t' (add_quota t d e)
  = quota t' e + (if BoothType_eqb t t' then d else 0).
Proof. destruct t, t'; simpl; lia. Qed.

Lemma parse_boothType_name t : parse_boothType (Some (boothType_name t)) = Some t.
Proof. by destruct t. Qed.

Lemma save_exhibition_valid i e exs :
  valid_exhibition e → save_exhibition i e exs = inr (<[i := e]> exs).
Proof.
  intros [Hs Hb]. unfold save_exhibition.
  replace (smallBoothQuota e <? 0) with false by (symmetry; apply Z.ltb_ge; lia).
  replace (bigBoothQuota e <? 0) with false by (symmetry; apply Z.ltb_ge; lia).
  reflexivity.
Qed.

Lemma save_exhibition_inr i e exs exs' :
  save_exhibition i e exs = inr exs' →
  exs' = <[i := e]> exs ∧ valid_exhibition e.
Proof.
  unfold save_exhibition, valid_exhibition.
  destruct (smallBoothQuota e <? 0) eqn:Hs; [ discriminate | ].
  destruct (bigBoothQuota e <? 0) eqn:Hb; [ discriminate | ].
  simpl. intros [= <-]. apply Z.ltb_ge in Hs, Hb. done.
Qed.

Lemma save_exhibition_inl i e exs error :
  save_exhibition i e exs = inl error → error = exhibition_validation_error.
Proof.
  unfold save_exhibition.
  destruct (_ || _); [ by intros [= <-] | discriminate ].
Qed.

Lemma findOne_Some p i bs b :
  findOne p i bs = Some b →
  bs !! i = Some b ∧ (user_role p = member → user b = user_id p).
Proof.
  unfold findOne. destruct (bs !! i) as [b0|]; [ | discriminate ].
  destruct (user_role p).
  - intros [= ->]. split; [ done | discriminate ].
  - destruct (Nat.eqb (user b0) (user_id p)) eqn:Hu; [ | discriminate ].
    intros [= ->]. apply Nat.eqb_eq in Hu. done.
Qed.

Lemma findOne_admin u i bs :
  findOne {| user_id := u; user_role := admin |} i bs = bs !! i.
Proof. unfold findOne. simpl. by destruct (bs !! i). Qed.

Lemma findOne_owner i bs b :
  bs !! i = Some b →
  findOne {| user_id := user b; user_role := member |} i bs = Some b.
Proof. intros Hi. unfold findOne. simpl. by rewrite Hi, Nat.eqb_refl. Qed.

Lemma findOne_other u i bs b :
  bs !! i = Some b → u ≠ user b →
  findOne {| user_id := u; user_role := member |} i bs = None.
Proof.
  intros Hi Hne. unfold findOne. simpl. rewrite Hi.
  replace (Nat.eqb (user b) u) with false; [ done | ].
  symmetry. apply Nat.eqb_neq. congruence.
Qed.

(** What a successful [save] of a booking guarantees. *)
Lemma save_booking_inr doc bs bs' :
  save_booking doc bs = inr bs' →
  bs' = <[_id doc := fields doc]> bs
  ∧ 1 ≤ amount (fields doc)
  ∧ (isNew doc = true → bs !! _id doc = None)
  ∧ (isModified_amount doc = true →
     sum_amount (match_user (user (fields doc)) (exhibition (fields doc)))
                (delete (_id doc) bs)
     + amount (fields doc) ≤ 6).
Proof.
  unfold save_booking, preSave.
  destruct (amount (fields doc) <? 1) eqn:Hmin; [ discriminate | ].
  apply Z.ltb_ge in Hmin. rewrite sum_amount_except.
  destruct (isModified_amount doc) eqn:Hmod; simpl.
  - destruct (6 <? _) eqn:Hcap; [ discriminate | ].
    apply Z.ltb_ge in Hcap.
    destruct (isNew doc).
    + destruct (bs !! _id doc) eqn:Hi; [ discriminate | ].
      intros [= <-]. done.
    + intros [= <-]. done.
  - destruct (isNew doc) eqn:Hnew.
    + unfold isModified_amount in Hmod. rewrite Hnew in Hmod. discriminate.
    + intros [= <-]. done.
Qed.

(** What a failed [save] of a booking throws. *)
Lemma save_booking_inl doc bs error :
  save_booking doc bs = inl error →
  error = booking_validation_error ∨ error = cap_error
  ∨ error = duplicate_key_error.
Proof.
  unfold save_booking, preSave.
  destruct (amount (fields doc) <? 1); [ intros [= <-]; auto | ].
  destruct (negb (isModified_amount doc)).
  - destruct (isNew doc); [ | discriminate ].
    destruct (bs !! _id doc); [ intros [= <-]; auto | discriminate ].
  - simpl. destruct (6 <? _); [ intros [= <-]; auto | ].
    destruct (isNew doc); [ | discriminate ].
    destruct (bs !! _id doc); [ intros [= <-]; auto | discriminate ].
Qed.

(** A new document that passes validation and the cap, under a fresh
    [_id], is inserted. *)
Lemma save_booking_new i b bs :
  1 ≤ amount b →
  bs !! i = None →
  sum_amount (match_user (user b) (exhibition b)) bs + amount b ≤ 6 →
  save_booking {| _id := i; isNew := true; loadedAmount := amount b;
                  fields := b |} bs
  = inr (<[i := b]> bs).
Proof.
  intros Hmin Hi Hcap. unfold save_booking, preSave, isModified_amount. simpl.
  replace (amount b <? 1) with false by (symmetry; apply Z.ltb_ge; lia).
  rewrite sum_amount_except, delete_id by exact Hi.
  replace (6 <? _) with false by (symmetry; apply Z.ltb_ge; lia).
  by rewrite Hi.
Qed.

(** ** Creation against the live quota counter *)

(** C3: a create request whose amount exceeds the exhibition's live quota
    counter for the requested booth type is answered 400 (BadRequest) and
    leaves the whole store (bookings and quota counters) as it was. The
    hypothesis is on the counter of the exhibition, whatever the bookings
    stored; when the start date has not passed the answer names the booth
    type. *)
Theorem C3_create_over_quota_rejected today newId p body db e t a :
  exhibitions db !! body_exhibition body = Some e →
  parse_boothType (body_boothType body) = Some t →
  body_amount body = Some a →
  quota t e < a →
  let r := createBooking today newId p body db in
  status r.1 = 400 ∧ fails_with BadRequest r.1 ∧ r.2 = db
  ∧ (today ≤ startDate e →
     message r.1
     = Some ("Not enough " +:+ boothType_name t +:+ " booths available")).
Proof.
  intros He Ht Ha Hq. unfold createBooking. rewrite He, Ht, Ha.
  destruct (startDate e <? today) eqn:Hd.
  - apply Z.ltb_lt in Hd. repeat split; try done. lia.
  - unfold js_gt. replace (quota t e <? a) with true
      by (symmetry; apply Z.ltb_lt; lia).
    repeat split; done.
Qed.

Lemma C3_create_over_quota_rejected_witness :
  let r := createBooking 50 1 alice (book "small" 11) fresh_db in
  status r.1 = 400 ∧ fails_with BadRequest r.1 ∧ r.2 = fresh_db
  ∧ (50 ≤ startDate expo →
     message r.1 = Some "Not enough small booths available").
Proof.
  apply (C3_create_over_quota_rejected 50 1 alice (book "small" 11)
           fresh_db expo small 11); [ reflexivity .. | simpl; lia ].
Defined.

(** ** Deleting an exhibition *)

(** C10: deleting an exhibition removes that exhibition record and nothing
    else. The deletion is answered 200 whether or not bookings reference
    the exhibition, and every stored booking, those that reference it
    included, is stored unchanged afterwards. *)
Theorem C10_deleteExhibition_keeps_bookings i db e :
  exhibitions db !! i = Some e →
  let r := deleteExhibition i db in
  status r.1 = 200
  ∧ exhibitions r.2 = delete i (exhibitions db)
  ∧ bookings r.2 = bookings db
  ∧ (∀ j b, bookings db !! j = Some b → exhibition b = i →
            bookings r.2 !! j = Some b).
Proof.
  intros He. unfold deleteExhibition. rewrite He. simpl. done.
Qed.

Lemma C10_deleteExhibition_keeps_bookings_witness :
  let r := deleteExhibition 1 two_bookings_db in
  status r.1 = 200
  ∧ exhibitions r.2 = delete 1%nat (exhibitions two_bookings_db)
  ∧ bookings r.2 = bookings two_bookings_db
  ∧ (∀ j b, bookings two_bookings_db !! j = Some b → exhibition b = 1%nat →
            bookings r.2 !! j = Some b).
Proof.
  apply (C10_deleteExhibition_keeps_bookings 1 two_bookings_db
           (add_quota small (-3) (add_quota small (-3) expo))).
  vm_compute. reflexivity.
Defined.

(** ** Deleting a booking *)

(** C9: a delete of a booking of type [t] and amount [a] that the caller
    may access. When the referenced exhibition is stored, the request
    succeeds exactly when the exhibition with [a] added to its counter for
    [t] passes validation, which it does whenever the stored counters are
    at least 0 and [a] is at least 0; a successful request is answered 200,
    the exhibition is written back with exactly [a] added to its counter
    for [t] (its other counter and the other exhibitions are untouched)
    and the booking is removed. When the referenced exhibition is missing,
    the request is answered 200 all the same, the exhibitions are
    untouched and the booking is removed. *)
Theorem C9_delete_restores_quota p i db b :
  findOne p i (bookings db) = Some b →
  let r := deleteBooking p i db in
  (∀ e, exhibitions db !! exhibition b = Some e →
        let e' := add_quota (boothType b) (amount b) e in
        (success r.1 = true ↔ valid_exhibition e')
        ∧ (valid_exhibition e → 0 ≤ amount b → success r.1 = true)
        ∧ (success r.1 = true →
           r.1 = ok_message "Booking deleted successfully"
           ∧ status r.1 = 200
           ∧ exhibitions r.2 = <[exhibition b := e']> (exhibitions db)
           ∧ bookings r.2 = delete i (bookings db))
        ∧ (∀ t, quota t e'
                = quota t e
                  + (if BoothType_eqb (boothType b) t then amount b else 0)))
  ∧ (exhibitions db !! exhibition b = None →
     status r.1 = 200 ∧ success r.1 = true
     ∧ exhibitions r.2 = exhibitions db
     ∧ bookings r.2 = delete i (bookings db)).
Proof.
  intros Hb. unfold deleteBooking. rewrite Hb. split.
  - intros e He. rewrite He.
    set (e' := add_quota (boothType b) (amount b) e).
    assert (Hvalid : valid_exhibition e → 0 ≤ amount b → valid_exhibition e').
    { intros [Hs Hg] Ha. unfold e', valid_exhibition.
      destruct (boothType b); simpl; lia. }
    destruct (save_exhibition _ e' _) as [error|exs'] eqn:Hsave; simpl.
    + assert (Hinvalid : ¬ valid_exhibition e').
      { intros Hv. by rewrite (save_exhibition_valid _ _ _ Hv) in Hsave. }
      split; [ split; [ discriminate | done ] | ].
      split; [ intros Hv Ha; destruct Hinvalid; auto | ].
      split; [ discriminate | ].
      intros t. apply quota_add_quota.
    + apply save_exhibition_inr in Hsave as [-> Hv].
      split; [ done | ]. split; [ done | ]. split; [ done | ].
      intros t. apply quota_add_quota.
  - intros He. rewrite He. simpl. done.
Qed.

Lemma C9_delete_restores_quota_witness :
  let r := deleteBooking alice 2 two_bookings_db in
  findOne alice 2 (bookings two_bookings_db)
  = Some {| user := 7; exhibition := 1; boothType := small; amount := 3 |}
  ∧ exhibitions two_bookings_db !! 1%nat = Some (add_quota small (-6) expo)
  ∧ success r.1 = true
  ∧ status r.1 = 200
  ∧ exhibitions r.2
    = <[1%nat := add_quota small 3 (add_quota small (-6) expo)]>
        (exhibitions two_bookings_db)
  ∧ bookings r.2 = delete 2%nat (bookings two_bookings_db)
  ∧ quota small (add_quota small 3 (add_quota small (-6) expo))
    = quota small (add_quota small (-6) expo) + 3.
Proof.
  intros r.
  assert (Hfound : findOne alice 2 (bookings two_bookings_db)
                   = Some {| user := 7; exhibition := 1; boothType := small;
                             amount := 3 |})
    by (vm_compute; reflexivity).
  assert (Hstored : exhibitions two_bookings_db !! 1%nat
                    = Some (add_quota small (-6) expo))
    by (vm_compute; reflexivity).
  destruct (C9_delete_restores_quota alice 2 two_bookings_db _ Hfound)
    as [Hrestore _].
  destruct (Hrestore _ Hstored) as (_ & Hok & Hout & Hquota).
  assert (Hsuccess : success r.1 = true).
  { apply Hok; [ split; simpl; lia | simpl; lia ]. }
  destruct (Hout Hsuccess) as (_ & Hst & Hexs & Hbs).
  split; [ exact Hfound | ]. split; [ exact Hstored | ].
  split; [ exact Hsuccess | ]. split; [ exact Hst | ].
  split; [ exact Hexs | ]. split; [ exact Hbs | ].
  exact (Hquota small).
Defined.

(** ** The booth type of an update request *)

(** C8 as stated fails: Alice's booking 1 is of type small; her update
    request omits [boothType] and asks for 2 booths, which the quota and
    the cap allow. The resulting booth type would be small, yet the request
    is answered 400 and nothing changes. *)
Lemma C8_update_without_boothType_counterexample :
  let body := {| upd_boothType := None; upd_amount := Some 2 |} in
  findOne alice 1 (bookings two_bookings_db)
  = Some {| user := 7; exhibition := 1; boothType := small; amount := 3 |}
  ∧ updateBooking alice 1 body two_bookings_db
    = (failure 400 "Booth type must be either small or big", two_bookings_db)
  ∧ status (updateBooking alice 1 (change "small" 2) two_bookings_db).1 = 200.
Proof. vm_compute. done. Qed.

(** C8 (amended): [boothType] is required in an update request. The
    controller tests [req.body.boothType] itself, before the fallback on
    the booking's booth type: an update of a booking the caller may see
    that omits [boothType], or gives a value other than 'small' and 'big',
    is answered 400 (BadRequest) and changes nothing, whatever the booth
    type of the booking. *)
Theorem C8_update_requires_boothType p i body db b :
  findOne p i (bookings db) = Some b →
  parse_boothType (upd_boothType body) = None →
  let r := updateBooking p i body db in
  r = (failure 400 "Booth type must be either small or big", db)
  ∧ fails_with BadRequest r.1.
Proof.
  intros Hb Ht. unfold updateBooking. rewrite Hb, Ht. done.
Qed.

Lemma C8_update_requires_boothType_witness :
  let body := {| upd_boothType := None; upd_amount := Some 2 |} in
  let r := updateBooking root 2 body two_bookings_db in
  r = (failure 400 "Booth type must be either small or big", two_bookings_db)
  ∧ fails_with BadRequest r.1.
Proof.
  apply (C8_update_requires_boothType root 2
           {| upd_boothType := None; upd_amount := Some 2 |} two_bookings_db
           {| user := 7; exhibition := 1; boothType := small; amount := 3 |});
    vm_compute; reflexivity.
Defined.

(** ** Ownership *)

(** C7 as stated fails: Bob, a member, updating or deleting Alice's
    booking 1 is answered 404 (NotFound), not Forbidden; only reading it is
    answered 401. *)
Lemma C7_other_member_counterexample :
  bookings two_bookings_db !! 1%nat
  = Some {| user := 7; exhibition := 1; boothType := small; amount := 3 |}
  ∧ user_id bob ≠ 7%nat
  ∧ fails_with Forbidden (getBooking bob 1 two_bookings_db)
  ∧ fails_with NotFound (updateBooking bob 1 (change "small" 2) two_bookings_db).1
  ∧ ¬ fails_with Forbidden (updateBooking bob 1 (change "small" 2) two_bookings_db).1
  ∧ fails_with NotFound (deleteBooking bob 1 two_bookings_db).1
  ∧ ¬ fails_with Forbidden (deleteBooking bob 1 two_bookings_db).1.
Proof. vm_compute. repeat split; congruence. Qed.

(** C7 (amended): for a booking owned by user A and a member B other than
    A, [getBooking] by B is answered 401 (Forbidden); [updateBooking] and
    [deleteBooking] by B look the booking up under B's user id, are
    answered 404 (NotFound) and change nothing. An admin is never turned
    away on ownership: each of the three operations invoked by an admin
    does exactly what it does for the owner; reading is answered 200, and
    deleting is answered 200 when the stored documents are valid. *)
Theorem C7_ownership A B i db b :
  bookings db !! i = Some b →
  user b = A →
  B ≠ A →
  let other := {| user_id := B; user_role := member |} in
  let owner := {| user_id := A; user_role := member |} in
  fails_with Forbidden (getBooking other i db)
  ∧ (∀ body, let r := updateBooking other i body db in
             fails_with NotFound r.1 ∧ r.2 = db)
  ∧ (let r := deleteBooking other i db in
     fails_with NotFound r.1 ∧ r.2 = db)
  ∧ (∀ u, let adm := {| user_id := u; user_role := admin |} in
          getBooking adm i db = getBooking owner i db
          ∧ status (getBooking adm i db) = 200
          ∧ (∀ body, updateBooking adm i body db = updateBooking owner i body db)
          ∧ deleteBooking adm i db = deleteBooking owner i db
          ∧ (valid_db db → status (deleteBooking adm i db).1 = 200)).
Proof.
  intros Hb HA HB other owner.
  assert (Hother : findOne other i (bookings db) = None).
  { apply (findOne_other B i _ b Hb). congruence. }
  assert (Howner : findOne owner i (bookings db) = Some b).
  { subst A. by apply findOne_owner. }
  split; [ | split; [ | split ] ].
  - unfold getBooking. rewrite Hb. simpl.
    replace (Nat.eqb (user b) B) with false
      by (symmetry; apply Nat.eqb_neq; congruence).
    done.
  - intros body. unfold updateBooking. rewrite Hother. done.
  - unfold deleteBooking. rewrite Hother. done.
  - intros u adm.
    assert (Hadm : findOne adm i (bookings db) = Some b).
    { unfold adm. by rewrite findOne_admin. }
    split; [ | split; [ | split; [ | split ] ] ].
    + unfold getBooking. rewrite Hb. simpl. subst A.
      by rewrite Nat.eqb_refl, andb_false_r.
    + unfold getBooking. rewrite Hb. simpl. by rewrite andb_false_r.
    + intros body. unfold updateBooking. by rewrite Hadm, Howner.
    + unfold deleteBooking. by rewrite Hadm, Howner.
    + intros [Hexs Hbs]. unfold deleteBooking. rewrite Hadm.
      destruct (exhibitions db !! exhibition b) as [e|] eqn:He; [ | done ].
      rewrite save_exhibition_valid; [ done | ].
      destruct (Hexs _ _ He) as [Hs Hg]. pose proof (Hbs _ _ Hb).
      unfold valid_exhibition. destruct (boothType b); simpl; lia.
Qed.

(** ** Creation and the cap of 6 *)

(** A create request on a stored exhibition that would take the caller's
    total past 6 is answered 400 and changes nothing. *)
Lemma createBooking_over_cap today newId p body db e a :
  exhibitions db !! body_exhibition body = Some e →
  body_amount body = Some a →
  6 < checkTotalBooths (user_id p) (body_exhibition body) (bookings db) + a →
  createBooking today newId p body db
  = ((createBooking today newId p body db).1, db)
  ∧ status (createBooking today newId p body db).1 = 400.
Proof.
  intros He Ha Hcap. unfold createBooking. rewrite He, Ha.
  destruct (parse_boothType _); [ | done ].
  destruct (startDate e <? today); [ done | ].
  destruct (js_gt _ _); [ done | ].
  unfold js_add_gt. unfold checkTotalBooths in Hcap.
  replace (6 <? _) with true by (symmetry; apply Z.ltb_lt; lia).
  done.
Qed.

(** A create request that passes every check stores the booking under the
    new [_id], takes the amount off the counter of its booth type and is
    answered 201. *)
Lemma createBooking_success today newId p body db e t a :
  exhibitions db !! body_exhibition body = Some e →
  parse_boothType (body_boothType body) = Some t →
  today ≤ startDate e →
  body_amount body = Some a →
  1 ≤ a ≤ quota t e →
  checkTotalBooths (user_id p) (body_exhibition body) (bookings db) + a ≤ 6 →
  valid_exhibition e →
  bookings db !! newId = None →
  let db' :=
    {| exhibitions := <[body_exhibition body := add_quota t (- a) e]>
                        (exhibitions db);
       bookings := <[newId := {| user := user_id p;
                                 exhibition := body_exhibition body;
                                 boothType := t; amount := a |}]>
                     (bookings db) |} in
  createBooking today newId p body db = (ok 201 newId db', db').
Proof.
  intros He Ht Hd Ha Hq Hcap Hv Hfresh. unfold createBooking.
  rewrite He, Ht, Ha.
  replace (startDate e <? today) with false by (symmetry; apply Z.ltb_ge; lia).
  unfold js_gt, js_add_gt.
  replace (quota t e <? a) with false by (symmetry; apply Z.ltb_ge; lia).
  unfold checkTotalBooths in Hcap.
  replace (6 <? _) with false by (symmetry; apply Z.ltb_ge; lia).
  rewrite (save_booking_new newId
             {| user := user_id p; exhibition := body_exhibition body;
                boothType := t; amount := a |})
    by (simpl; first [ lia | done ]).
  rewrite save_exhibition_valid; [ done | ].
  destruct Hv as [Hs Hb]. unfold valid_exhibition.
  destruct t; simpl in *; lia.
Qed.

(** The caller's total on the exhibition after a stored creation. *)
Lemma checkTotalBooths_insert u e i b bs :
  bs !! i = None →
  checkTotalBooths u e (<[i := b]> bs)
  = contribution (match_user u e) i b + checkTotalBooths u e bs.
Proof. apply sum_amount_insert. Qed.

(** C4: a create request by principal [p] on a stored exhibition, with
    amount [a]. (1) When [p]'s total on the exhibition plus [a] exceeds 6
    the request is answered 400 (BadRequest) and changes nothing. (2) When
    that total plus [a] is at most 6 and the other preconditions hold (known
    booth type, start date not passed, 1 ≤ [a] ≤ the counter of the type,
    valid stored exhibition, fresh [_id]) the request is answered 201 and
    the booking is stored. (3) Three successive requests for 3, 3 and 1
    small booths by a user holding nothing on an exhibition with at least 6
    small booths left are answered 201, 201 and 400. *)
Theorem C4_create_cap today p eid e db :
  exhibitions db !! eid = Some e →
  (∀ newId t a,
     6 < checkTotalBooths (user_id p) eid (bookings db) + a →
     let r := createBooking today newId p
                {| body_exhibition := eid; body_boothType := t;
                   body_amount := Some a |} db in
     fails_with BadRequest r.1 ∧ r.2 = db)
  ∧ (∀ newId t a,
       checkTotalBooths (user_id p) eid (bookings db) + a ≤ 6 →
       today ≤ startDate e → 1 ≤ a ≤ quota t e → valid_exhibition e →
       bookings db !! newId = None →
       let r := createBooking today newId p
                  {| body_exhibition := eid;
                     body_boothType := Some (boothType_name t);
                     body_amount := Some a |} db in
       status r.1 = 201 ∧ success r.1 = true
       ∧ bookings r.2 !! newId
         = Some {| user := user_id p; exhibition := eid; boothType := t;
                   amount := a |})
  ∧ (∀ n1 n2 n3,
       checkTotalBooths (user_id p) eid (bookings db) = 0 →
       today ≤ startDate e → 6 ≤ smallBoothQuota e → 0 ≤ bigBoothQuota e →
       bookings db !! n1 = None → bookings db !! n2 = None → n1 ≠ n2 →
       let body a := {| body_exhibition := eid;
                        body_boothType := Some "small";
                        body_amount := Some a |} in
       status <$> responses [Create today n1 p (body 3);
                             Create today n2 p (body 3);
                             Create today n3 p (body 1)] db
       = [201; 201; 400]).
Proof.
  intros He. split; [ | split ].
  - intros newId t a Hcap r.
    destruct (createBooking_over_cap today newId p
                {| body_exhibition := eid; body_boothType := t;
                   body_amount := Some a |} db e a He eq_refl Hcap)
      as [Heq Hst].
    subst r. split.
    + unfold fails_with. by rewrite Hst.
    + by rewrite Heq.
  - intros newId t a Hcap Hd Hq Hv Hfresh r. subst r.
    rewrite (createBooking_success today newId p _ db e t a);
      try done; [ | apply parse_boothType_name ].
    simpl. split; [ done | split; [ done | ] ].
    apply lookup_insert_eq.
  - intros n1 n2 n3 Htot Hd Hsmall Hbig Hn1 Hn2 Hne body.
    unfold responses, step, body.
    set (b3 := {| user := user_id p; exhibition := eid; boothType := small;
                  amount := 3 |}).
    assert (Hq0 : 1 ≤ 3 ≤ quota small e) by (simpl; lia).
    assert (Hcap0 : checkTotalBooths (user_id p) eid (bookings db) + 3 ≤ 6)
      by lia.
    assert (Hv0 : valid_exhibition e) by (split; lia).
    rewrite (createBooking_success today n1 p
               {| body_exhibition := eid; body_boothType := Some "small";
                  body_amount := Some 3 |} db e small 3
               He eq_refl Hd eq_refl Hq0 Hcap0 Hv0 Hn1).
    cbn [fst snd body_exhibition].
    set (db1 := {| exhibitions := _; bookings := _ |}).
    assert (Htot1 : checkTotalBooths (user_id p) eid (bookings db1) = 3).
    { unfold db1. cbn [bookings].
      rewrite checkTotalBooths_insert by done.
      unfold contribution, match_user. simpl.
      rewrite !Nat.eqb_refl. simpl. lia. }
    assert (He1 : exhibitions db1 !! eid = Some (add_quota small (-3) e)).
    { unfold db1. cbn [exhibitions]. apply lookup_insert_eq. }
    assert (Hq1 : 1 ≤ 3 ≤ quota small (add_quota small (-3) e))
      by (simpl; lia).
    assert (Hcap1 : checkTotalBooths (user_id p) eid (bookings db1) + 3 ≤ 6)
      by lia.
    assert (Hv1 : valid_exhibition (add_quota small (-3) e))
      by (split; simpl; lia).
    assert (Hfresh1 : bookings db1 !! n2 = None).
    { unfold db1. cbn [bookings]. rewrite lookup_insert_ne; done. }
    rewrite (createBooking_success today n2 p
               {| body_exhibition := eid; body_boothType := Some "small";
                  body_amount := Some 3 |} db1 (add_quota small (-3) e)
               small 3 He1 eq_refl Hd eq_refl Hq1 Hcap1 Hv1 Hfresh1).
    cbn [fst snd body_exhibition].
    set (db2 := {| exhibitions := _; bookings := _ |}).
    assert (Htot2 : checkTotalBooths (user_id p) eid (bookings db2) = 6).
    { unfold db2. cbn [bookings].
      rewrite checkTotalBooths_insert by exact Hfresh1.
      rewrite Htot1. unfold contribution, match_user. simpl.
      rewrite !Nat.eqb_refl. simpl. lia. }
    assert (He2 : exhibitions db2 !! eid
                  = Some (add_quota small (-3) (add_quota small (-3) e))).
    { unfold db2. cbn [exhibitions]. apply lookup_insert_eq. }
    assert (Hcap2 : 6 < checkTotalBooths (user_id p) eid (bookings db2) + 1)
      by lia.
    destruct (createBooking_over_cap today n3 p
                {| body_exhibition := eid; body_boothType := Some "small";
                   body_amount := Some 1 |} db2 _ 1 He2 eq_refl Hcap2)
      as [_ Hst].
    cbn [fmap list_fmap]. rewrite Hst. done.
Qed.

(** ** The cap of 6 as an invariant of the booking operations *)

(** How each operation may change the booking collection. *)
Lemma createBooking_bookings today newId p body db :
  let bs' := bookings (createBooking today newId p body db).2 in
  bs' = bookings db
  ∨ ∃ b, bookings db !! newId = None
         ∧ 1 ≤ amount b
         ∧ checkTotalBooths (user b) (exhibition b) (bookings db) + amount b ≤ 6
         ∧ bs' = <[newId := b]> (bookings db).
Proof.
  unfold createBooking.
  destruct (exhibitions db !! _) as [e|]; [ | by left ].
  destruct (parse_boothType _) as [t|]; [ | by left ].
  destruct (startDate e <? today); [ by left | ].
  destruct (js_gt _ _); [ by left | ].
  destruct (js_add_gt _ _ _); [ by left | ].
  destruct (body_amount body) as [a|]; [ | by left ].
  destruct (save_booking _ _) as [error|bs1] eqn:Hsave; [ by left | ].
  apply save_booking_inr in Hsave as (-> & Hmin & Hfresh & Hcap).
  simpl in Hmin, Hfresh, Hcap.
  specialize (Hfresh eq_refl). specialize (Hcap eq_refl).
  rewrite delete_id in Hcap by exact Hfresh.
  right.
  exists {| user := user_id p; exhibition := body_exhibition body;
            boothType := t; amount := a |}.
  repeat split; [ exact Hfresh | exact Hmin | exact Hcap | ].
  by destruct (save_exhibition _ _ _).
Qed.

Lemma updateBooking_bookings p i body db :
  let bs' := bookings (updateBooking p i body db).2 in
  bs' = bookings db
  ∨ ∃ b b', bookings db !! i = Some b
            ∧ user b' = user b ∧ exhibition b' = exhibition b
            ∧ 1 ≤ amount b'
            ∧ (amount b' = amount b
               ∨ checkTotalBooths (user b) (exhibition b)
                   (delete i (bookings db)) + amount b' ≤ 6)
            ∧ bs' = <[i := b']> (bookings db).
Proof.
  unfold updateBooking.
  destruct (findOne p i (bookings db)) as [b|] eqn:Hb; [ | by left ].
  apply findOne_Some in Hb as [Hb _].
  destruct (parse_boothType _) as [t|]; [ | by left ].
  destruct (exhibitions db !! _) as [e|]; [ | by left ].
  destruct (_ <? _); [ by left | ].
  destruct (save_exhibition _ _ _) as [error|exs']; [ by left | ].
  destruct (save_booking _ _) as [error|bs1] eqn:Hsave; [ by left | ].
  apply save_booking_inr in Hsave as (-> & Hmin & _ & Hcap).
  simpl in Hmin, Hcap. unfold isModified_amount in Hcap. simpl in Hcap.
  right.
  exists b, {| user := user b; exhibition := exhibition b; boothType := t;
               amount := js_or_num (upd_amount body) (amount b) |}.
  split; [ exact Hb | ]. split; [ done | ]. split; [ done | ].
  split; [ exact Hmin | ]. split; [ | done ].
  simpl. destruct (js_or_num (upd_amount body) (amount b) =? amount b)
    eqn:Hsame.
  - left. by apply Z.eqb_eq.
  - right. by apply Hcap.
Qed.

Lemma deleteBooking_bookings p i db :
  let bs' := bookings (deleteBooking p i db).2 in
  bs' = bookings db ∨ bs' = delete i (bookings db).
Proof.
  unfold deleteBooking.
  destruct (findOne p i (bookings db)) as [b|]; [ | by left ].
  destruct (exhibitions db !! _) as [e|]; [ | by right ].
  destruct (save_exhibition _ _ _); [ by left | by right ].
Qed.

(** The three ways the collection changes keep the documents valid and the
    cap respected. *)
Lemma valid_bookings_insert i b bs :
  1 ≤ amount b → valid_bookings bs → valid_bookings (<[i := b]> bs).
Proof.
  intros Hb Hbs j x. rewrite lookup_insert. case_decide.
  - by intros [= <-].
  - apply Hbs.
Qed.

Lemma valid_bookings_delete i bs :
  valid_bookings bs → valid_bookings (delete i bs).
Proof.
  intros Hbs j x Hj. apply lookup_delete_Some in Hj as [_ Hj]. by eapply Hbs.
Qed.

Lemma contribution_match_user u e j b :
  contribution (match_user u e) j b
  = if Nat.eqb (user b) u && Nat.eqb (exhibition b) e then amount b else 0.
Proof. reflexivity. Qed.

Lemma cap_ok_insert i b bs :
  bs !! i = None →
  checkTotalBooths (user b) (exhibition b) bs + amount b ≤ 6 →
  cap_ok bs → cap_ok (<[i := b]> bs).
Proof.
  intros Hi Hcap Hok u e.
  rewrite checkTotalBooths_insert by exact Hi.
  rewrite contribution_match_user.
  destruct (Nat.eqb (user b) u && Nat.eqb (exhibition b) e) eqn:Hm.
  - apply andb_true_iff in Hm as [Hu He].
    apply Nat.eqb_eq in Hu, He. subst u e. lia.
  - specialize (Hok u e). lia.
Qed.

Lemma cap_ok_delete i bs :
  valid_bookings bs → cap_ok bs → cap_ok (delete i bs).
Proof.
  intros Hv Hok u e. specialize (Hok u e).
  destruct (bs !! i) as [b|] eqn:Hi.
  - unfold checkTotalBooths in *.
    rewrite (sum_amount_delete _ bs i b Hi) in Hok.
    specialize (Hv i b Hi). unfold contribution in Hok.
    destruct (match_user u e i b); lia.
  - by rewrite delete_id.
Qed.

Lemma cap_ok_replace i b b' bs :
  bs !! i = Some b →
  user b' = user b → exhibition b' = exhibition b →
  amount b' = amount b
  ∨ checkTotalBooths (user b) (exhibition b) (delete i bs) + amount b' ≤ 6 →
  cap_ok bs → cap_ok (<[i := b']> bs).
Proof.
  intros Hi Hu He Hamt Hok u e.
  unfold checkTotalBooths in *.
  rewrite <- insert_delete_eq.
  rewrite sum_amount_insert by apply lookup_delete_eq.
  pose proof (Hok u e) as Hue. unfold checkTotalBooths in Hue.
  rewrite (sum_amount_delete _ bs i b Hi) in Hue.
  rewrite !contribution_match_user in *. rewrite Hu, He.
  destruct (Nat.eqb (user b) u && Nat.eqb (exhibition b) e) eqn:Hm;
    [ | lia ].
  apply andb_true_iff in Hm as [Hu' He'].
  apply Nat.eqb_eq in Hu', He'. subst u e.
  destruct Hamt as [-> | Hcap]; lia.
Qed.

Lemma step_invariant op db :
  valid_bookings (bookings db) → cap_ok (bookings db) →
  valid_bookings (bookings (step op db).2) ∧ cap_ok (bookings (step op db).2).
Proof.
  intros Hv Hok. destruct op as [today newId p body | p i body | p i]; simpl.
  - destruct (createBooking_bookings today newId p body db)
      as [-> | (b & Hfresh & Hmin & Hcap & ->)]; [ done | ].
    split; [ by apply valid_bookings_insert | by apply cap_ok_insert ].
  - destruct (updateBooking_bookings p i body db)
      as [-> | (b & b' & Hb & Hu & He & Hmin & Hcap & ->)]; [ done | ].
    split; [ by apply valid_bookings_insert | by eapply cap_ok_replace ].
  - destruct (deleteBooking_bookings p i db) as [-> | ->]; [ done | ].
    split; [ by apply valid_bookings_delete | by apply cap_ok_delete ].
Qed.



(** ** The cap guard of the persistence layer *)

(** A save with a modified amount that would take the pair past 6 throws
    the cap error as soon as the record passes validation. *)
Lemma save_booking_over_cap doc bs :
  isModified_amount doc = true →
  6 < sum_amount (match_user_except (user (fields doc))
                    (exhibition (fields doc)) (_id doc)) bs
      + amount (fields doc) →
  save_booking doc bs
  = inl (if amount (fields doc) <? 1 then booking_validation_error
         else cap_error).
Proof.
  intros Hmod Hcap. unfold save_booking, preSave. rewrite Hmod. simpl.
  replace (6 <? _) with true by (symmetry; apply Z.ltb_lt; lia).
  by destruct (amount (fields doc) <? 1).
Qed.

(** C6 as stated fails: the middleware returns at once when [amount] is
    not modified. (1) Alice holds 4 small booths on exhibition 1 (booking
    1) and 4 big booths on exhibition 2 (booking 2); the store respects the
    cap. Booking 2 is loaded, its exhibition is set to 1 and it is saved
    with its amount untouched: the other bookings of the pair sum to 4, the
    record's own amount is 4, 8 exceeds 6, and the save is accepted.
    (2) Alice's bookings 1 and 2 on exhibition 1 hold 4 booths each (as two
    simultaneous creations leave them); booking 2 is loaded and saved with
    only its booth type changed: 4 + 4 exceeds 6 and the save is accepted. *)
Lemma C6_unmodified_amount_counterexample :
  let b1 := {| user := 7; exhibition := 1; boothType := small; amount := 4 |} in
  let bs : gmap nat Booking :=
    {[ 1%nat := b1;
       2%nat := {| user := 7; exhibition := 2; boothType := big; amount := 4 |} ]} in
  let bs2 : gmap nat Booking := {[ 1%nat := b1; 2%nat := b1 ]} in
  let doc :=
    {| _id := 2; isNew := false; loadedAmount := 4;
       fields := {| user := 7; exhibition := 1; boothType := big; amount := 4 |} |} in
  (checkTotalBooths 7 1 bs = 4 ∧ checkTotalBooths 7 2 bs = 4
   ∧ 6 < sum_amount (match_user_except 7 1 2) bs + amount (fields doc)
   ∧ save_booking doc bs = inr (<[2%nat := fields doc]> bs)
   ∧ checkTotalBooths 7 1 (<[2%nat := fields doc]> bs) = 8)
  ∧ (6 < sum_amount (match_user_except 7 1 2) bs2 + amount (fields doc)
     ∧ save_booking doc bs2 = inr (<[2%nat := fields doc]> bs2)).
Proof. vm_compute. done. Qed.

(** C6 (amended): whenever a booking record whose [amount] is modified is
    saved (every new record, and every loaded record whose amount was
    assigned a different value), if the amounts of the other bookings of
    its (user, exhibition) pair plus its own amount exceed 6, [save]
    itself throws, whatever the caller checked before: the cap error when
    the record passes schema validation, which the update controller
    answers with 400 and the middleware's message. A save that leaves
    [amount] unmodified is not checked. *)
Theorem C6_persistence_cap_guard doc bs :
  isModified_amount doc = true →
  6 < sum_amount (match_user_except (user (fields doc))
                    (exhibition (fields doc)) (_id doc)) bs
      + amount (fields doc) →
  (∃ error, save_booking doc bs = inl error)
  ∧ (1 ≤ amount (fields doc) →
     save_booking doc bs = inl cap_error
     ∧ updateBooking_catch cap_error
       = failure 400 "Total number of booths cannot exceed 6 per exhibition").
Proof.
  intros Hmod Hcap. rewrite (save_booking_over_cap doc bs Hmod Hcap). split.
  - eauto.
  - intros Hmin.
    replace (amount (fields doc) <? 1) with false
      by (symmetry; apply Z.ltb_ge; lia).
    done.
Qed.

(** ** Updates rejected after the exhibition was written *)

(** [save] of a loaded booking whose new amount passes validation and whose
    amount is unchanged or within the cap writes the document. *)
Lemma save_booking_loaded i a0 b bs :
  1 ≤ amount b →
  amount b = a0
  ∨ sum_amount (match_user (user b) (exhibition b)) (delete i bs) + amount b ≤ 6 →
  save_booking {| _id := i; isNew := false; loadedAmount := a0; fields := b |} bs
  = inr (<[i := b]> bs).
Proof.
  intros Hmin Hcap. unfold save_booking, preSave, isModified_amount. simpl.
  replace (amount b <? 1) with false by (symmetry; apply Z.ltb_ge; lia).
  destruct (amount b =? a0) eqn:Hsame; simpl; [ done | ].
  apply Z.eqb_neq in Hsame. destruct Hcap as [Heq | Hcap]; [ done | ].
  rewrite sum_amount_except.
  replace (6 <? _) with false by (symmetry; apply Z.ltb_ge; lia).
  done.
Qed.

Section update.
Variables (p : Principal) (i : ObjectId) (body : UpdateBody) (db : DB).
Variables (b : Booking) (t : BoothType) (e : Exhibition).
Hypothesis Hfound : findOne p i (bookings db) = Some b.
Hypothesis Htype : parse_boothType (upd_boothType body) = Some t.
Hypothesis Hexhibition : exhibitions db !! exhibition b = Some e.

(** X25: availability is checked on the counter of the new type, after the
    old reservation is restored; when it does not suffice the request is
    answered 400 naming the booth type and nothing is written. *)
Lemma updateBooking_insufficient_quota :
  quota t (restored b e) < requested_amount body b →
  updateBooking p i body db
  = (failure 400 ("Not enough " +:+ boothType_name t +:+ " booths available"),
     db).
Proof.
  unfold restored, requested_amount. intros Hq. unfold updateBooking.
  rewrite Hfound, Htype, Hexhibition.
  replace (_ <? _) with true by (symmetry; apply Z.ltb_lt; lia).
  done.
Qed.

(** X26: a request that passes the quota check, validation and the cap is
    answered 200 and writes the exhibition (old reservation released, new
    one taken) and the booking (new booth type and amount, same owner and
    exhibition). *)
Lemma updateBooking_commit :
  let a := requested_amount body b in
  a ≤ quota t (restored b e) →
  valid_exhibition (updated_exhibition t a b e) →
  1 ≤ a →
  a = amount b
  ∨ checkTotalBooths (user b) (exhibition b) (delete i (bookings db)) + a ≤ 6 →
  let db' :=
    {| exhibitions := <[exhibition b := updated_exhibition t a b e]>
                        (exhibitions db);
       bookings := <[i := updated_booking t a b]> (bookings db) |} in
  updateBooking p i body db = (ok 200 i db', db').
Proof.
  intros a Hq Hv Hmin Hcap db'. subst a db'.
  unfold restored, requested_amount, updated_exhibition, updated_booking in *.
  unfold updateBooking.
  rewrite Hfound, Htype, Hexhibition.
  replace (_ <? _) with false by (symmetry; apply Z.ltb_ge; lia).
  rewrite (save_exhibition_valid _ _ _ Hv).
  rewrite save_booking_loaded; done.
Qed.

(** X27: a request that passes the quota check and is then refused by the
    cap guard of [booking.save()] is answered 400 with the middleware's
    message, with the exhibition already written and the booking as it
    was. *)
Lemma updateBooking_cap_rejected :
  let a := requested_amount body b in
  a ≤ quota t (restored b e) →
  valid_exhibition (updated_exhibition t a b e) →
  1 ≤ a →
  a ≠ amount b →
  6 < checkTotalBooths (user b) (exhibition b) (delete i (bookings db)) + a →
  updateBooking p i body db
  = (failure 400 "Total number of booths cannot exceed 6 per exhibition",
     {| exhibitions := <[exhibition b := updated_exhibition t a b e]>
                         (exhibitions db);
        bookings := bookings db |}).
Proof.
  intros a Hq Hv Hmin Hne Hcap.
  unfold restored, requested_amount, updated_exhibition in *.
  unfold updateBooking.
  rewrite Hfound, Htype, Hexhibition.
  replace (_ <? _) with false by (symmetry; apply Z.ltb_ge; lia).
  rewrite (save_exhibition_valid _ _ _ Hv).
  rewrite save_booking_over_cap.
  - simpl. fold a.
    replace (a <? 1) with false by (symmetry; apply Z.ltb_ge; lia).
    done.
  - unfold isModified_amount. simpl. apply negb_true_iff, Z.eqb_neq, Hne.
  - simpl. rewrite sum_amount_except. exact Hcap.
Qed.
End update.

(** C5, the code at the failing input: Alice holds bookings 1 and 2 of 3
    small booths each, with 4 small and 10 big booths left. Her update of
    booking 1 to 4 big booths passes the quota check (10 big booths are
    available) and is refused by the cap guard of [booking.save()] (3 + 4
    exceeds 6). The request is answered 400 and the booking is as it was,
    but [exhibition.save()] ran before: the store now has 7 small and 6
    big booths left, as if the update had been committed. *)
Theorem C5_update_rejected_by_cap_changes_quota :
  let r := updateBooking alice 1 (change "big" 4) two_bookings_db in
  bookings two_bookings_db !! 1%nat
  = Some {| user := 7; exhibition := 1; boothType := small; amount := 3 |}
  ∧ exhibitions two_bookings_db !! 1%nat
    = Some (add_quota small (-6) expo)
  ∧ r.1 = failure 400 "Total number of booths cannot exceed 6 per exhibition"
  ∧ bookings r.2 = bookings two_bookings_db
  ∧ exhibitions r.2 !! 1%nat
    = Some (add_quota big (-4) (add_quota small (-3) expo))
  ∧ r.2 ≠ two_bookings_db.
Proof.
  vm_compute. repeat split; try reflexivity. intros [=].
Qed.

(** ** Conservation of quota plus booked booths *)

(** C1, the code at the failing input: on an exhibition with 10 small and
    10 big booths and no booking, Alice creates two bookings of 3 small
    booths (201, 201; counter plus booked booths is 10 for both types), then
    asks to change the first to 4 big booths, which is answered 400 (cap).
    Afterwards the bookings are unchanged (6 small booths booked, no big
    one) while 7 small and 6 big booths are left: counter plus booked
    booths is 13 for small and 6 for big, not the initial 10. *)
Theorem C1_conservation_broken_by_rejected_update :
  let creates := [Create 50 1 alice (book "small" 3);
                  Create 50 2 alice (book "small" 3)] in
  let ops := creates ++ [Update alice 1 (change "big" 4)] in
  bookings fresh_db = ∅
  ∧ quota_plus_booked 1 small fresh_db = Some 10
  ∧ quota_plus_booked 1 big fresh_db = Some 10
  ∧ quota_plus_booked 1 small (run creates fresh_db) = Some 10
  ∧ quota_plus_booked 1 big (run creates fresh_db) = Some 10
  ∧ status <$> responses ops fresh_db = [201; 201; 400]
  ∧ quota_plus_booked 1 small (run ops fresh_db) = Some 13
  ∧ quota_plus_booked 1 big (run ops fresh_db) = Some 6.
Proof. vm_compute. repeat split; reflexivity. Qed.

(** What the accounting does conserve: the shapes a step can give the
    store, and the sum of counter and booked booths across them. *)
Lemma contribution_match_type i t j b :
  contribution (match_type i t) j b
  = if Nat.eqb (exhibition b) i && BoothType_eqb (boothType b) t
    then amount b else 0.
Proof. reflexivity. Qed.

Lemma quota_plus_booked_write i t k e e' exs bs bs' :
  exs !! k = Some e →
  (quota t e' + sum_amount (match_type k t) bs'
   = quota t e + sum_amount (match_type k t) bs) →
  (k ≠ i → sum_amount (match_type i t) bs' = sum_amount (match_type i t) bs) →
  quota_plus_booked i t {| exhibitions := <[k := e']> exs; bookings := bs' |}
  = quota_plus_booked i t {| exhibitions := exs; bookings := bs |}.
Proof.
  intros He Hk Hother. unfold quota_plus_booked. simpl.
  destruct (decide (k = i)) as [<- | Hne].
  - rewrite lookup_insert_eq, He. by rewrite Hk.
  - rewrite lookup_insert_ne by done.
    destruct (exs !! i); [ | done ]. by rewrite Hother.
Qed.

Lemma match_type_other i t j b :
  exhibition b ≠ i → contribution (match_type i t) j b = 0.
Proof.
  intros Hne. rewrite contribution_match_type.
  replace (Nat.eqb (exhibition b) i) with false; [ done | ].
  symmetry. by apply Nat.eqb_neq.
Qed.

Lemma match_type_same t j b :
  contribution (match_type (exhibition b) t) j b
  = if BoothType_eqb (boothType b) t then amount b else 0.
Proof. rewrite contribution_match_type. by rewrite Nat.eqb_refl. Qed.

Lemma createBooking_conserves today newId p body db i t :
  valid_db db →
  quota_plus_booked i t (createBooking today newId p body db).2
  = quota_plus_booked i t db.
Proof.
  intros [Hexs _]. unfold createBooking.
  destruct (exhibitions db !! _) as [e|] eqn:He; [ | done ].
  destruct (parse_boothType _) as [t0|]; [ | done ].
  destruct (startDate e <? today); [ done | ].
  destruct (js_gt _ _) eqn:Hq; [ done | ].
  destruct (js_add_gt _ _ _); [ done | ].
  destruct (body_amount body) as [a|]; [ | done ].
  simpl in Hq. apply Z.ltb_ge in Hq.
  destruct (save_booking _ _) as [error|bs1] eqn:Hsave; [ done | ].
  apply save_booking_inr in Hsave as (-> & Hmin & Hfresh & _).
  simpl in Hmin, Hfresh. specialize (Hfresh eq_refl).
  rewrite save_exhibition_valid.
  - simpl. destruct db as [exs bs]. simpl in *.
    apply (quota_plus_booked_write i t _ e); [ exact He | | ].
    + rewrite sum_amount_insert by exact Hfresh.
      rewrite contribution_match_type, quota_add_quota. simpl.
      rewrite Nat.eqb_refl. simpl.
      destruct (BoothType_eqb t0 t); lia.
    + intros Hne. rewrite sum_amount_insert by exact Hfresh.
      rewrite match_type_other by done. lia.
  - destruct (Hexs _ _ He) as [Hs Hb]. unfold valid_exhibition.
    destruct t0; simpl in *; lia.
Qed.

Lemma deleteBooking_conserves p j db i t :
  quota_plus_booked i t (deleteBooking p j db).2 = quota_plus_booked i t db.
Proof.
  unfold deleteBooking.
  destruct (findOne p j (bookings db)) as [b|] eqn:Hb; [ | done ].
  apply findOne_Some in Hb as [Hb _].
  destruct (exhibitions db !! exhibition b) as [e|] eqn:He.
  - destruct (save_exhibition _ _ _) as [error|exs'] eqn:Hsave; [ done | ].
    apply save_exhibition_inr in Hsave as [-> _].
    simpl. destruct db as [exs bs]. simpl in *.
    apply (quota_plus_booked_write i t _ e); [ exact He | | ].
    + rewrite (sum_amount_delete _ bs j b Hb).
      rewrite match_type_same, quota_add_quota.
      destruct (BoothType_eqb (boothType b) t); lia.
    + intros Hne. rewrite (sum_amount_delete _ bs j b Hb).
      rewrite match_type_other by done. lia.
  - simpl. unfold quota_plus_booked. simpl.
    destruct (exhibitions db !! i) as [e|] eqn:Hi; [ | done ].
    rewrite (sum_amount_delete _ (bookings db) j b Hb).
    rewrite match_type_other by congruence. f_equal; lia.
Qed.

Lemma updateBooking_conserves p j body db i t :
  success (updateBooking p j body db).1 = true
  ∨ (updateBooking p j body db).2 = db →
  quota_plus_booked i t (updateBooking p j body db).2
  = quota_plus_booked i t db.
Proof.
  intros [Hok | ->]; [ | done ]. revert Hok. unfold updateBooking.
  destruct (findOne p j (bookings db)) as [b|] eqn:Hb; [ | done ].
  apply findOne_Some in Hb as [Hb _].
  destruct (parse_boothType _) as [t0|]; [ | done ].
  destruct (exhibitions db !! exhibition b) as [e|] eqn:He; [ | done ].
  destruct (_ <? _); [ done | ].
  destruct (save_exhibition _ _ _) as [error|exs'] eqn:Hsave.
  { apply save_exhibition_inl in Hsave as ->. discriminate. }
  apply save_exhibition_inr in Hsave as [-> _].
  destruct (save_booking _ _) as [error|bs1] eqn:Hsaveb.
  { apply save_booking_inl in Hsaveb as [-> | [-> | ->]]; discriminate. }
  apply save_booking_inr in Hsaveb as (-> & _). simpl. intros _.
  destruct db as [exs bs]. simpl in *.
  set (a := js_or_num (upd_amount body) (amount b)).
  apply (quota_plus_booked_write i t _ e); [ exact He | | ].
  - rewrite (sum_amount_replace _ bs j b _ Hb).
    rewrite !contribution_match_type. simpl. rewrite Nat.eqb_refl. simpl.
    rewrite !quota_add_quota.
    destruct (BoothType_eqb t0 t), (BoothType_eqb (boothType b) t); lia.
  - intros Hne. rewrite (sum_amount_replace _ bs j b _ Hb).
    rewrite !contribution_match_type. simpl.
    replace (Nat.eqb (exhibition b) i) with false
      by (symmetry; by apply Nat.eqb_neq).
    simpl. lia.
Qed.

(** Every write goes through a validating [save]: valid stores stay
    valid, also across an update that was only half written. *)
Lemma valid_exhibitions_insert (exs : gmap nat Exhibition) k e' :
  valid_exhibition e' →
  (∀ i e, exs !! i = Some e → valid_exhibition e) →
  ∀ i e, <[k := e']> exs !! i = Some e → valid_exhibition e.
Proof.
  intros He' Hexs i e. rewrite lookup_insert. case_decide.
  - by intros [= <-].
  - apply Hexs.
Qed.

Lemma step_valid_db op db : valid_db db → valid_db (step op db).2.
Proof.
  intros [Hexs Hbs]. split.
  - destruct op as [today newId p body | p j body | p j]; simpl.
    + unfold createBooking.
      destruct (exhibitions db !! _) as [e|]; [ | done ].
      destruct (parse_boothType _) as [t0|]; [ | done ].
      destruct (startDate e <? today); [ done | ].
      destruct (js_gt _ _); [ done | ].
      destruct (js_add_gt _ _ _); [ done | ].
      destruct (body_amount body) as [a|]; [ | done ].
      destruct (save_booking _ _); [ done | ].
      destruct (save_exhibition _ _ _) as [|exs'] eqn:Hsave; [ done | ].
      apply save_exhibition_inr in Hsave as [-> Hv].
      by apply valid_exhibitions_insert.
    + unfold updateBooking.
      destruct (findOne p j (bookings db)) as [b|]; [ | done ].
      destruct (parse_boothType _) as [t0|]; [ | done ].
      destruct (exhibitions db !! _) as [e|]; [ | done ].
      destruct (_ <? _); [ done | ].
      destruct (save_exhibition _ _ _) as [|exs'] eqn:Hsave; [ done | ].
      apply save_exhibition_inr in Hsave as [-> Hv].
      destruct (save_booking _ _); by apply valid_exhibitions_insert.
    + unfold deleteBooking.
      destruct (findOne p j (bookings db)) as [b|]; [ | done ].
      destruct (exhibitions db !! _) as [e|]; [ | done ].
      destruct (save_exhibition _ _ _) as [|exs'] eqn:Hsave; [ done | ].
      apply save_exhibition_inr in Hsave as [-> Hv].
      by apply valid_exhibitions_insert.
  - destruct op as [today newId p body | p j body | p j]; simpl.
    + destruct (createBooking_bookings today newId p body db)
        as [-> | (b & _ & Hmin & _ & ->)]; [ done | ].
      by apply valid_bookings_insert.
    + destruct (updateBooking_bookings p j body db)
        as [-> | (b & b' & _ & _ & _ & Hmin & _ & ->)]; [ done | ].
      by apply valid_bookings_insert.
    + destruct (deleteBooking_bookings p j db) as [-> | ->]; [ done | ].
      by apply valid_bookings_delete.
Qed.

(** X24: counter plus booked booths is conserved, for every exhibition and
    both booth types, by every sequence of booking requests in which each
    request succeeds or writes nothing. *)
Theorem quota_conserved_when_all_or_nothing ops db i t :
  valid_db db →
  all_or_nothing ops db →
  quota_plus_booked i t (run ops db) = quota_plus_booked i t db.
Proof.
  revert db. induction ops as [|op ops IH]; intros db Hv Hall; [ done | ].
  destruct Hall as [Hop Hrest]. simpl.
  rewrite (IH _ (step_valid_db op db Hv) Hrest).
  destruct op as [today newId p body | p j body | p j]; simpl in *.
  - by apply createBooking_conserves.
  - by apply updateBooking_conserves.
  - apply deleteBooking_conserves.
Qed.

(** ** Instances on the example store *)


Lemma C4_create_cap_witness :
  status <$> responses [Create 50 1 alice (book "small" 3);
                        Create 50 2 alice (book "small" 3);
                        Create 50 3 alice (book "small" 1)] fresh_db
  = [201; 201; 400].
Proof.
  destruct (C4_create_cap 50 alice 1 expo fresh_db eq_refl) as (_ & _ & H).
  apply (H 1%nat 2%nat 3%nat);
    first [ reflexivity | discriminate | simpl; lia ].
Defined.

Lemma C6_persistence_cap_guard_witness :
  let bs : gmap nat Booking :=
    {[ 1%nat := {| user := 7; exhibition := 1; boothType := small; amount := 3 |} ]} in
  let doc :=
    {| _id := 2; isNew := true; loadedAmount := 4;
       fields := {| user := 7; exhibition := 1; boothType := big; amount := 4 |} |} in
  save_booking doc bs = inl cap_error.
Proof.
  intros bs doc.
  destruct (C6_persistence_cap_guard doc bs) as [_ H];
    [ reflexivity | vm_compute; reflexivity | ].
  apply H. simpl. lia.
Defined.

Lemma C7_ownership_witness :
  fails_with Forbidden (getBooking bob 1 two_bookings_db)
  ∧ fails_with NotFound
      (updateBooking bob 1 (change "small" 2) two_bookings_db).1
  ∧ fails_with NotFound (deleteBooking bob 1 two_bookings_db).1
  ∧ status (getBooking root 1 two_bookings_db) = 200
  ∧ updateBooking root 1 (change "small" 2) two_bookings_db
    = updateBooking alice 1 (change "small" 2) two_bookings_db
  ∧ deleteBooking root 1 two_bookings_db
    = deleteBooking alice 1 two_bookings_db.
Proof.
  destruct (C7_ownership 7 8 1 two_bookings_db
              {| user := 7; exhibition := 1; boothType := small; amount := 3 |})
    as (Hget & Hupd & Hdel & Hadm);
    [ vm_compute; reflexivity | reflexivity | discriminate | ].
  destruct (Hadm 1%nat) as (_ & Hst & Hu & Hd & _).
  split; [ exact Hget | ].
  split; [ exact (proj1 (Hupd (change "small" 2))) | ].
  split; [ exact (proj1 Hdel) | ].
  split; [ exact Hst | ].
  split; [ exact (Hu (change "small" 2)) | exact Hd ].
Defined.

(** * Further properties of the controllers *)

(** ** Creating a booking: when it succeeds, and what a failure leaves *)

(** The conditions under which [createBooking] stores a booking. *)
Lemma createBooking_stores today newId p body db e t a :
  exhibitions db !! body_exhibition body = Some e →
  parse_boothType (body_boothType body) = Some t →
  today ≤ startDate e →
  body_amount body = Some a →
  1 ≤ a ≤ quota t e →
  checkTotalBooths (user_id p) (body_exhibition body) (bookings db) + a ≤ 6 →
  valid_exhibition (add_quota t (- a) e) →
  bookings db !! newId = None →
  let db' :=
    {| exhibitions := <[body_exhibition body := add_quota t (- a) e]>
                        (exhibitions db);
       bookings := <[newId := {| user := user_id p;
                                 exhibition := body_exhibition body;
                                 boothType := t; amount := a |}]>
                     (bookings db) |} in
  createBooking today newId p body db = (ok 201 newId db', db').
Proof.
  intros He Ht Hd Ha Hq Hcap Hv Hfresh. unfold createBooking.
  rewrite He, Ht, Ha.
  replace (startDate e <? today) with false by (symmetry; apply Z.ltb_ge; lia).
  unfold js_gt, js_add_gt.
  replace (quota t e <? a) with false by (symmetry; apply Z.ltb_ge; lia).
  unfold checkTotalBooths in Hcap.
  replace (6 <? _) with false by (symmetry; apply Z.ltb_ge; lia).
  rewrite (save_booking_new newId
             {| user := user_id p; exhibition := body_exhibition body;
                boothType := t; amount := a |})
    by (simpl; first [ lia | done ]).
  by rewrite (save_exhibition_valid _ _ _ Hv).
Qed.

Lemma createBooking_success_inv today newId p body db :
  success (createBooking today newId p body db).1 = true →
  ∃ e t a,
    exhibitions db !! body_exhibition body = Some e
    ∧ parse_boothType (body_boothType body) = Some t
    ∧ today ≤ startDate e
    ∧ body_amount body = Some a
    ∧ 1 ≤ a ≤ quota t e
    ∧ checkTotalBooths (user_id p) (body_exhibition body) (bookings db) + a ≤ 6
    ∧ valid_exhibition (add_quota t (- a) e)
    ∧ bookings db !! newId = None.
Proof.
  unfold createBooking.
  destruct (exhibitions db !! _) as [e|]; [ | discriminate ].
  destruct (parse_boothType _) as [t|]; [ | discriminate ].
  destruct (startDate e <? today) eqn:Hd; [ discriminate | ].
  destruct (js_gt _ _) eqn:Hq; [ discriminate | ].
  destruct (js_add_gt _ _ _) eqn:Hcap; [ discriminate | ].
  destruct (body_amount body) as [a|]; [ | discriminate ].
  simpl in Hq, Hcap. apply Z.ltb_ge in Hd, Hq, Hcap.
  destruct (save_booking _ _) as [error|bs1] eqn:Hsave.
  { apply save_booking_inl in Hsave as [-> | [-> | ->]]; discriminate. }
  apply save_booking_inr in Hsave as (-> & Hmin & Hfresh & _).
  simpl in Hmin, Hfresh.
  destruct (save_exhibition _ _ _) as [error|exs'] eqn:Hsavee.
  { apply save_exhibition_inl in Hsavee as ->. discriminate. }
  apply save_exhibition_inr in Hsavee as [_ Hv].
  intros _. exists e, t, a. unfold checkTotalBooths.
  specialize (Hfresh eq_refl).
  split; [ done | ]. split; [ done | ]. split; [ lia | ]. split; [ done | ].
  split; [ lia | ]. split; [ lia | ]. done.
Qed.

(** X1: [createBooking] succeeds exactly when the exhibition is stored,
    the booth type is 'small' or 'big', the start date is today or later,
    the amount is at least 1 and at most the counter of the type, the
    caller's total on the exhibition stays within 6, the counters after
    the reservation are not negative and the new [_id] is free; under
    these conditions the answer is 201 with the booking stored and the
    counter lowered by the amount. *)
Theorem createBooking_success_iff today newId p body db :
  let r := createBooking today newId p body db in
  let accepted e t a :=
    exhibitions db !! body_exhibition body = Some e
    ∧ parse_boothType (body_boothType body) = Some t
    ∧ today ≤ startDate e
    ∧ body_amount body = Some a
    ∧ 1 ≤ a ≤ quota t e
    ∧ checkTotalBooths (user_id p) (body_exhibition body) (bookings db) + a ≤ 6
    ∧ valid_exhibition (add_quota t (- a) e)
    ∧ bookings db !! newId = None in
  (success r.1 = true ↔ ∃ e t a, accepted e t a)
  ∧ (∀ e t a,
       accepted e t a →
       let db' :=
         {| exhibitions := <[body_exhibition body := add_quota t (- a) e]>
                             (exhibitions db);
            bookings := <[newId := {| user := user_id p;
                                      exhibition := body_exhibition body;
                                      boothType := t; amount := a |}]>
                          (bookings db) |} in
       r = (ok 201 newId db', db') ∧ status r.1 = 201).
Proof.
  intros r accepted. subst r accepted. split; [ split | ].
  - intros Hok.
    destruct (createBooking_success_inv _ _ _ _ _ Hok)
      as (e & t & a & He & Ht & Hd & Ha & Hq & Hcap & Hv & Hfresh).
    exists e, t, a. done.
  - intros (e & t & a & He & Ht & Hd & Ha & Hq & Hcap & Hv & Hfresh).
    rewrite (createBooking_stores today newId p body db e t a); done.
  - intros e t a (He & Ht & Hd & Ha & Hq & Hcap & Hv & Hfresh).
    rewrite (createBooking_stores today newId p body db e t a); done.
Qed.

(** X2: on a store whose exhibitions have non-negative counters, a create
    request that is not answered with success leaves the store exactly as
    it was. *)
Theorem createBooking_failure_writes_nothing today newId p body db :
  (∀ i e, exhibitions db !! i = Some e → valid_exhibition e) →
  success (createBooking today newId p body db).1 = false →
  (createBooking today newId p body db).2 = db.
Proof.
  intros Hexs. unfold createBooking.
  destruct (exhibitions db !! _) as [e|] eqn:He; [ | done ].
  destruct (parse_boothType _) as [t|]; [ | done ].
  destruct (startDate e <? today); [ done | ].
  destruct (js_gt _ _) eqn:Hq; [ done | ].
  destruct (js_add_gt _ _ _); [ done | ].
  destruct (body_amount body) as [a|]; [ | done ].
  simpl in Hq. apply Z.ltb_ge in Hq.
  destruct (save_booking _ _) as [error|bs1]; [ done | ].
  rewrite save_exhibition_valid; [ discriminate | ].
  destruct (Hexs _ _ He) as [Hs Hb]. unfold valid_exhibition.
  destruct t; simpl in *; lia.
Qed.

(** X3: a create request without an amount, or with an amount below 1,
    never changes the store; when the exhibition is stored with
    non-negative counters, the booth type is known, the start date has not
    passed and the caller is within the cap, it is answered 500 'Server
    Error' (the schema's validation error reaches the [catch] block), not
    400. *)
Theorem createBooking_malformed_amount today newId p body db :
  (∀ a, body_amount body = Some a → a < 1) →
  let r := createBooking today newId p body db in
  r.2 = db ∧ success r.1 = false
  ∧ (∀ e t, exhibitions db !! body_exhibition body = Some e →
            parse_boothType (body_boothType body) = Some t →
            today ≤ startDate e → 0 ≤ quota t e →
            checkTotalBooths (user_id p) (body_exhibition body) (bookings db) ≤ 6 →
            r.1 = server_error).
Proof.
  intros Hamt. unfold createBooking.
  destruct (exhibitions db !! _) as [e|];
    [ | split; [ done | split; [ done | discriminate ] ] ].
  destruct (parse_boothType _) as [t|];
    [ | split; [ done | split; [ done | intros ?? _ [=] ] ] ].
  destruct (startDate e <? today) eqn:Hd.
  { apply Z.ltb_lt in Hd. split; [ done | split; [ done | ] ].
    intros ?? [= <-] _ ? _ _. exfalso. lia. }
  destruct (body_amount body) as [a|] eqn:Ha.
  - specialize (Hamt a eq_refl). unfold js_gt, js_add_gt.
    destruct (quota t e <? a) eqn:Hq.
    { apply Z.ltb_lt in Hq. split; [ done | split; [ done | ] ].
      intros ?? [= <-] [= <-] _ ? _. exfalso. lia. }
    destruct (6 <? _) eqn:Hcap.
    { apply Z.ltb_lt in Hcap. split; [ done | split; [ done | ] ].
      intros ?? _ _ _ _ Htot. unfold checkTotalBooths in Htot.
      exfalso. lia. }
    unfold save_booking. simpl.
    replace (a <? 1) with true by (symmetry; apply Z.ltb_lt; lia).
    done.
  - simpl. done.
Qed.

(** X4: a create request that passes every check of the controller but
    brings an [_id] already in the collection is answered 400 'Invalid
    booking request' (the duplicate-key branch of the [catch] block) and
    changes nothing. *)
Theorem createBooking_duplicate_id today newId p body db e t a b0 :
  exhibitions db !! body_exhibition body = Some e →
  parse_boothType (body_boothType body) = Some t →
  today ≤ startDate e →
  body_amount body = Some a →
  1 ≤ a ≤ quota t e →
  checkTotalBooths (user_id p) (body_exhibition body) (bookings db) + a ≤ 6 →
  bookings db !! newId = Some b0 →
  1 ≤ amount b0 →
  createBooking today newId p body db
  = (failure 400 "Invalid booking request", db).
Proof.
  intros He Ht Hd Ha Hq Hcap Hdup Hb0. unfold createBooking.
  rewrite He, Ht, Ha.
  replace (startDate e <? today) with false by (symmetry; apply Z.ltb_ge; lia).
  unfold js_gt, js_add_gt.
  replace (quota t e <? a) with false by (symmetry; apply Z.ltb_ge; lia).
  unfold checkTotalBooths in Hcap.
  replace (6 <? _) with false by (symmetry; apply Z.ltb_ge; lia).
  unfold save_booking, preSave, isModified_amount. simpl.
  replace (a <? 1) with false by (symmetry; apply Z.ltb_ge; lia).
  rewrite sum_amount_except.
  rewrite (sum_amount_delete _ _ _ _ Hdup) in Hcap.
  unfold contribution in Hcap.
  replace (6 <? _) with false.
  - by rewrite Hdup.
  - symmetry. apply Z.ltb_ge.
    destruct (match_user _ _ newId b0); lia.
Qed.

(** ** Round trips of the booking controller *)

Lemma add_quota_cancel t d d' e :
  d + d' = 0 → add_quota t d (add_quota t d' e) = e.
Proof.
  intros Hd. destruct e, t; unfold add_quota; simpl; f_equal; lia.
Qed.

Lemma findOne_insert p i b b' (bs : gmap nat Booking) :
  findOne p i bs = Some b → user b' = user b →
  findOne p i (<[i := b']> bs) = Some b'.
Proof.
  intros Hb Hu. apply findOne_Some in Hb as [_ Hrole].
  unfold findOne. rewrite lookup_insert_eq.
  destruct (user_role p); [ done | ].
  by rewrite Hu, (Hrole eq_refl), Nat.eqb_refl.
Qed.

(** X5: after a successful create request, the caller reading the new
    booking gets 200 and the booking as requested (caller as owner,
    exhibition, booth type, amount) with the exhibition populated, its
    counter already lowered; this is also the body of the 201 answer. *)
Theorem createBooking_then_getBooking today newId p body db :
  let r := createBooking today newId p body db in
  success r.1 = true →
  ∃ e t a,
    exhibitions db !! body_exhibition body = Some e
    ∧ parse_boothType (body_boothType body) = Some t
    ∧ body_amount body = Some a
    ∧ getBooking p newId r.2
      = {| status := 200; success := true; message := None;
           data := Some {| pb_id := newId;
                           pb_booking := {| user := user_id p;
                                            exhibition := body_exhibition body;
                                            boothType := t; amount := a |};
                           pb_exhibition := Some (add_quota t (- a) e) |} |}
    ∧ data r.1 = data (getBooking p newId r.2).
Proof.
  intros r Hok. subst r.
  destruct (createBooking_success_inv _ _ _ _ _ Hok)
    as (e & t & a & He & Ht & Hd & Ha & Hq & Hcap & Hv & Hfresh).
  exists e, t, a.
  rewrite (createBooking_stores today newId p body db e t a) by done.
  split; [ done | ]. split; [ done | ]. split; [ done | ].
  unfold getBooking, ok, populated. cbn [fst snd bookings exhibitions data].
  rewrite !lookup_insert_eq. cbn [user exhibition].
  rewrite Nat.eqb_refl. cbn [negb andb]. done.
Qed.

(** X6: creating a booking and then deleting it gives back the store as
    it was before the creation, quota counters included. *)
Theorem createBooking_then_deleteBooking today newId p body db :
  let r := createBooking today newId p body db in
  success r.1 = true →
  deleteBooking p newId r.2 = (ok_message "Booking deleted successfully", db).
Proof.
  intros r Hok. subst r.
  destruct (createBooking_success_inv _ _ _ _ _ Hok)
    as (e & t & a & He & Ht & Hd & Ha & Hq & Hcap & Hv & Hfresh).
  rewrite (createBooking_stores today newId p body db e t a) by done.
  unfold deleteBooking. cbn [snd bookings exhibitions].
  set (b := {| user := user_id p; exhibition := body_exhibition body;
               boothType := t; amount := a |}).
  assert (Hfind : findOne p newId (<[newId := b]> (bookings db)) = Some b).
  { unfold findOne. rewrite lookup_insert_eq.
    destruct (user_role p); [ done | ]. simpl. by rewrite Nat.eqb_refl. }
  rewrite Hfind. cbn [exhibition boothType amount b].
  rewrite lookup_insert_eq.
  rewrite add_quota_cancel by lia.
  rewrite save_exhibition_valid.
  - rewrite insert_insert_eq, (insert_id _ _ _ He), (delete_insert_id _ _ _ Hfresh).
    by destruct db.
  - destruct Hv as [Hs Hb]. unfold valid_exhibition.
    destruct t; simpl in *; lia.
Qed.

(** X7: a delete request that is not answered with success changes
    nothing, and after a successful delete the same request, by anyone, is
    answered 404 and changes nothing. *)
Theorem deleteBooking_twice p q i db :
  let r := deleteBooking p i db in
  (success r.1 = false → r.2 = db)
  ∧ (success r.1 = true →
     deleteBooking q i r.2 = (failure 404 "Booking not found", r.2)).
Proof.
  unfold deleteBooking.
  destruct (findOne p i (bookings db)) as [b|]; [ | split; [ done | discriminate ] ].
  assert (Hgone : findOne q i (delete i (bookings db)) = None).
  { unfold findOne. by rewrite lookup_delete_eq. }
  destruct (exhibitions db !! exhibition b) as [e|].
  - destruct (save_exhibition _ _ _) as [error|exs'];
      [ split; [ done | discriminate ] | ].
    split; [ discriminate | ]. intros _. cbn [snd bookings].
    by rewrite Hgone.
  - split; [ discriminate | ]. intros _. cbn [snd bookings].
    by rewrite Hgone.
Qed.

(** ** Updating a booking *)

Lemma js_or_num_idem x d : js_or_num x (js_or_num x d) = js_or_num x d.
Proof.
  unfold js_or_num. destruct x as [v|]; [ | done ].
  by destruct (v =? 0).
Qed.

(** The conditions under which [updateBooking] writes the exhibition and
    the booking. *)
Lemma updateBooking_writes p i body db b t e :
  findOne p i (bookings db) = Some b →
  parse_boothType (upd_boothType body) = Some t →
  exhibitions db !! exhibition b = Some e →
  requested_amount body b ≤ quota t (restored b e) →
  valid_exhibition (updated_exhibition t (requested_amount body b) b e) →
  1 ≤ requested_amount body b →
  requested_amount body b = amount b
  ∨ checkTotalBooths (user b) (exhibition b) (delete i (bookings db))
    + requested_amount body b ≤ 6 →
  let db' :=
    {| exhibitions :=
         <[exhibition b := updated_exhibition t (requested_amount body b) b e]>
           (exhibitions db);
       bookings := <[i := updated_booking t (requested_amount body b) b]>
                     (bookings db) |} in
  updateBooking p i body db = (ok 200 i db', db').
Proof.
  intros Hfound Htype Hexhibition Hq Hv Hmin Hcap db'. subst db'.
  unfold restored, requested_amount, updated_exhibition, updated_booking in *.
  unfold updateBooking.
  rewrite Hfound, Htype, Hexhibition.
  replace (_ <? _) with false by (symmetry; apply Z.ltb_ge; lia).
  rewrite (save_exhibition_valid _ _ _ Hv).
  rewrite save_booking_loaded; done.
Qed.

Lemma updateBooking_success_inv p i body db :
  success (updateBooking p i body db).1 = true →
  ∃ b t e,
    findOne p i (bookings db) = Some b
    ∧ parse_boothType (upd_boothType body) = Some t
    ∧ exhibitions db !! exhibition b = Some e
    ∧ requested_amount body b ≤ quota t (restored b e)
    ∧ valid_exhibition (updated_exhibition t (requested_amount body b) b e)
    ∧ 1 ≤ requested_amount body b
    ∧ (requested_amount body b = amount b
       ∨ checkTotalBooths (user b) (exhibition b) (delete i (bookings db))
         + requested_amount body b ≤ 6).
Proof.
  unfold updateBooking.
  destruct (findOne p i (bookings db)) as [b|] eqn:Hb; [ | discriminate ].
  destruct (parse_boothType _) as [t|]; [ | discriminate ].
  destruct (exhibitions db !! exhibition b) as [e|] eqn:He; [ | discriminate ].
  destruct (_ <? _) eqn:Hq; [ discriminate | ]. apply Z.ltb_ge in Hq.
  destruct (save_exhibition _ _ _) as [error|exs'] eqn:Hsave.
  { apply save_exhibition_inl in Hsave as ->. discriminate. }
  apply save_exhibition_inr in Hsave as [_ Hv].
  destruct (save_booking _ _) as [error|bs1] eqn:Hsaveb.
  { apply save_booking_inl in Hsaveb as [-> | [-> | ->]]; discriminate. }
  apply save_booking_inr in Hsaveb as (_ & Hmin & _ & Hcap).
  simpl in Hmin, Hcap. unfold isModified_amount in Hcap. simpl in Hcap.
  intros _. exists b, t, e.
  unfold requested_amount, restored, updated_exhibition, checkTotalBooths.
  split; [ done | ]. split; [ done | ]. split; [ done | ].
  split; [ exact Hq | ]. split; [ exact Hv | ]. split; [ exact Hmin | ].
  destruct (js_or_num (upd_amount body) (amount b) =? amount b) eqn:Hsame.
  - left. by apply Z.eqb_eq.
  - right. by apply Hcap.
Qed.

(** X8: repeating an update request that succeeded is answered 200 again
    and leaves the store as the first one left it: the reservation is
    released and taken again, and the cap guard is skipped because the
    amount does not change. *)
Theorem updateBooking_twice p i body db :
  let r := updateBooking p i body db in
  success r.1 = true →
  updateBooking p i body r.2 = (ok 200 i r.2, r.2).
Proof.
  intros r Hok. subst r.
  destruct (updateBooking_success_inv _ _ _ _ Hok)
    as (b & t & e & Hb & Ht & He & Hq & Hv & Hmin & Hcap).
  rewrite (updateBooking_writes p i body db b t e) by done.
  cbn [snd].
  set (a := requested_amount body b) in *.
  set (b' := updated_booking t a b).
  set (e' := updated_exhibition t a b e) in *.
  assert (Ha : requested_amount body b' = a).
  { unfold requested_amount, b', updated_booking. simpl.
    apply js_or_num_idem. }
  assert (He' : updated_exhibition t a b' e' = e').
  { unfold updated_exhibition, restored, b', updated_booking. simpl.
    apply add_quota_cancel. lia. }
  assert (Hb' : updated_booking t a b' = b') by done.
  rewrite (updateBooking_writes p i body _ b' t e').
  - rewrite Ha, He', Hb'. cbn [exhibitions bookings exhibition b' updated_booking].
    by rewrite !insert_insert_eq.
  - cbn [bookings]. by apply (findOne_insert p i b).
  - exact Ht.
  - cbn [exhibitions]. apply lookup_insert_eq.
  - rewrite Ha. unfold restored, b', updated_booking. simpl.
    rewrite quota_add_quota. destruct Hv as [Hs Hg].
    destruct t; simpl in *; lia.
  - by rewrite Ha, He'.
  - by rewrite Ha.
  - rewrite Ha. by left.
Qed.

Lemma updated_exhibition_valid t a b e :
  valid_exhibition e → 0 ≤ amount b → a ≤ quota t (restored b e) →
  valid_exhibition (updated_exhibition t a b e).
Proof.
  intros [Hs Hg] Hb Hq.
  unfold valid_exhibition, updated_exhibition, restored in *.
  destruct t, (boothType b); simpl in *; lia.
Qed.

(** X9: an update request whose amount is absent or 0 keeps the booking's
    amount ([req.body.amount || booking.amount]): on a valid store it only
    moves the reservation to the requested booth type, it succeeds as soon
    as the counter of that type (old reservation restored) covers the
    amount, without any check of the cap, and no (user, exhibition) total
    changes. *)
Theorem updateBooking_without_amount p i t x db b e :
  findOne p i (bookings db) = Some b →
  exhibitions db !! exhibition b = Some e →
  x = None ∨ x = Some 0 →
  valid_exhibition e →
  1 ≤ amount b →
  amount b ≤ quota t (restored b e) →
  let body := {| upd_boothType := Some (boothType_name t); upd_amount := x |} in
  let db' :=
    {| exhibitions := <[exhibition b := updated_exhibition t (amount b) b e]>
                        (exhibitions db);
       bookings := <[i := updated_booking t (amount b) b]> (bookings db) |} in
  updateBooking p i body db = (ok 200 i db', db')
  ∧ ∀ u k, checkTotalBooths u k (bookings db')
           = checkTotalBooths u k (bookings db).
Proof.
  intros Hb He Hx Hv Hmin Hq body db'.
  assert (Ha : requested_amount body b = amount b).
  { unfold requested_amount, body. simpl. by destruct Hx as [-> | ->]. }
  split.
  - rewrite (updateBooking_writes p i body db b t e); rewrite ?Ha; try done.
    + apply parse_boothType_name.
    + apply updated_exhibition_valid; [ done | lia | done ].
    + by left.
  - intros u k. unfold db', checkTotalBooths. cbn [bookings].
    apply findOne_Some in Hb as [Hb _].
    rewrite (sum_amount_replace _ _ _ _ _ Hb).
    unfold contribution, match_user, updated_booking. simpl.
    destruct (_ && _); lia.
Qed.

(** X10: an update request with a negative amount, on a valid store,
    passes the quota check, has the exhibition written with the old
    reservation released and the counter of the requested type raised by
    the absolute value of the amount, and only then fails the schema's
    validation of the booking: it is answered 500 'Server Error', the
    booking is unchanged and the counters keep the change. *)
Theorem updateBooking_negative_amount p i body db b t e a :
  findOne p i (bookings db) = Some b →
  parse_boothType (upd_boothType body) = Some t →
  exhibitions db !! exhibition b = Some e →
  valid_exhibition e →
  1 ≤ amount b →
  upd_amount body = Some a →
  a < 0 →
  updateBooking p i body db
  = (server_error,
     {| exhibitions := <[exhibition b := updated_exhibition t a b e]>
                         (exhibitions db);
        bookings := bookings db |})
  ∧ quota t (updated_exhibition t a b e) = quota t (restored b e) - a
  ∧ quota t e < quota t (updated_exhibition t a b e).
Proof.
  intros Hb Ht He Hv Hmin Ha Hneg.
  assert (Hr : 0 ≤ quota t (restored b e)).
  { destruct Hv as [Hs Hg]. unfold restored.
    destruct t, (boothType b); simpl; lia. }
  split; [ | split ].
  - unfold updateBooking. rewrite Hb, Ht, He, Ha.
    assert (Hnz : js_or_num (Some a) (amount b) = a).
    { unfold js_or_num. replace (a =? 0) with false; [ done | ].
      symmetry. apply Z.eqb_neq. lia. }
    rewrite Hnz. fold (restored b e).
    replace (quota t (restored b e) <? a) with false
      by (symmetry; apply Z.ltb_ge; lia).
    fold (updated_exhibition t a b e).
    rewrite save_exhibition_valid
      by (apply updated_exhibition_valid; [ done | lia | lia ]).
    unfold save_booking. cbn [fields amount].
    replace (a <? 1) with true by (symmetry; apply Z.ltb_lt; lia).
    reflexivity.
  - unfold updated_exhibition. rewrite quota_add_quota.
    destruct t; simpl; lia.
  - unfold updated_exhibition, restored. rewrite !quota_add_quota.
    destruct t, (boothType b); simpl; lia.
Qed.

(** ** Invariants over the requests of both controllers *)

Lemma min_number_Some m x v : min_number m x = Some v → m ≤ v.
Proof.
  unfold min_number. destruct x as [y|]; [ | discriminate ].
  destruct (y <? m) eqn:Hy; [ discriminate | ].
  intros [= <-]. by apply Z.ltb_ge.
Qed.

Lemma new_exhibition_valid body e :
  new_exhibition body = Some e →
  valid_exhibition e ∧ 1 ≤ durationDay e ∧ eb_startDate body = Some (startDate e).
Proof.
  unfold new_exhibition.
  destruct (required_string (trim <$> eb_name body)); [ | discriminate ].
  destruct (required_string (eb_description body)); [ | discriminate ].
  destruct (required_string (eb_venue body)); [ | discriminate ].
  destruct (eb_startDate body); [ | discriminate ].
  destruct (min_number 1 _) eqn:Hd; [ | discriminate ].
  destruct (min_number 0 (eb_smallBoothQuota body)) eqn:Hs; [ | discriminate ].
  destruct (min_number 0 (eb_bigBoothQuota body)) eqn:Hg; [ | discriminate ].
  destruct (required_string (eb_posterPicture body)); [ | discriminate ].
  intros [= <-]. apply min_number_Some in Hd, Hs, Hg.
  unfold valid_exhibition. simpl. done.
Qed.

Lemma apply_change_number m x old :
  is_refused (change_number m x) = false → m ≤ old →
  m ≤ apply_change (change_number m x) old.
Proof.
  unfold change_number. destruct x as [v|]; [ | done ].
  destruct (v <? m) eqn:Hv; [ discriminate | ].
  intros _ _. simpl. by apply Z.ltb_ge.
Qed.

Lemma set_fields_valid body e :
  update_refused body = false → valid_exhibition e →
  valid_exhibition (set_fields body e).
Proof.
  unfold update_refused. intros Href [Hs Hg].
  repeat (apply orb_false_iff in Href as [Href ?]).
  split; simpl; by apply apply_change_number.
Qed.

Lemma serve_valid_db r db : valid_db db → valid_db (serve r db).
Proof.
  intros Hv. destruct r as [op | today newId body | today i body | i]; simpl.
  - by apply step_valid_db.
  - destruct Hv as [Hexs Hbs]. unfold createExhibition.
    destruct (startDate_passed _ _); [ done | ].
    destruct (new_exhibition body) as [e|] eqn:He; [ | done ].
    destruct (exhibitions db !! newId); [ done | ].
    split; [ | done ]. simpl.
    apply valid_exhibitions_insert; [ | done ].
    by apply new_exhibition_valid in He as [? _].
  - destruct Hv as [Hexs Hbs]. unfold updateExhibition.
    destruct (startDate_passed _ _); [ done | ].
    destruct (update_refused body) eqn:Href; [ done | ].
    destruct (exhibitions db !! i) as [e|] eqn:He; [ | done ].
    split; [ | done ]. simpl.
    apply valid_exhibitions_insert; [ | done ].
    apply set_fields_valid; [ done | by eapply Hexs ].
  - destruct Hv as [Hexs Hbs]. unfold deleteExhibition.
    destruct (exhibitions db !! i); [ | done ].
    split; [ | done ]. simpl. intros j x Hj.
    apply lookup_delete_Some in Hj as [_ Hj]. by eapply Hexs.
Qed.

Lemma serve_cap_ok r db :
  valid_bookings (bookings db) → cap_ok (bookings db) →
  cap_ok (bookings (serve r db)).
Proof.
  intros Hv Hok. destruct r as [op | today newId body | today i body | i]; simpl.
  - by apply step_invariant.
  - unfold createExhibition.
    destruct (startDate_passed _ _); [ done | ].
    destruct (new_exhibition body); [ | done ].
    by destruct (exhibitions db !! newId).
  - unfold updateExhibition.
    destruct (startDate_passed _ _); [ done | ].
    destruct (update_refused body); [ done | ].
    by destruct (exhibitions db !! i).
  - unfold deleteExhibition. by destruct (exhibitions db !! i).
Qed.

(** X11: starting from a store of valid documents within the cap, after
    any sequence of requests of the two controllers (create, update and
    delete of bookings and of exhibitions, failed ones included) every
    quota counter is still at least 0, every booking amount at least 1 and
    every (user, exhibition) total at most 6. *)
Theorem serve_all_invariants rs db :
  valid_db db → cap_ok (bookings db) →
  valid_db (serve_all rs db) ∧ cap_ok (bookings (serve_all rs db)).
Proof.
  revert db. induction rs as [|r rs IH]; intros db Hv Hok; [ done | ].
  simpl. apply IH.
  - by apply serve_valid_db.
  - apply serve_cap_ok; [ by destruct Hv | done ].
Qed.

(** ** What the booking operations leave alone *)

(** X12: no booking request changes the owner or the exhibition of a
    stored booking. A stored booking is afterwards either the same
    document, or the target of an update request with the same owner and
    exhibition, or gone because the request was a delete of it. *)
Theorem step_keeps_owner_and_exhibition op db j b :
  bookings db !! j = Some b →
  match bookings (step op db).2 !! j with
  | Some b' =>
      user b' = user b ∧ exhibition b' = exhibition b
      ∧ (b' = b ∨ ∃ p body, op = Update p j body)
  | None => ∃ p, op = Delete p j
  end.
Proof.
  intros Hj. destruct op as [today newId p body | p i body | p i]; simpl.
  - destruct (createBooking_bookings today newId p body db)
      as [-> | (b1 & Hfresh & _ & _ & ->)].
    + rewrite Hj. auto.
    + rewrite lookup_insert_ne by congruence. rewrite Hj. auto.
  - destruct (updateBooking_bookings p i body db)
      as [-> | (b0 & b' & Hb0 & Hu & He & _ & _ & ->)].
    + rewrite Hj. auto.
    + destruct (decide (i = j)) as [-> | Hne].
      * rewrite lookup_insert_eq. rewrite Hj in Hb0. injection Hb0 as <-.
        eauto 6.
      * rewrite lookup_insert_ne by done. rewrite Hj. auto.
  - destruct (deleteBooking_bookings p i db) as [-> | ->].
    + rewrite Hj. auto.
    + destruct (decide (i = j)) as [-> | Hne].
      * rewrite lookup_delete_eq. eauto.
      * rewrite lookup_delete_ne by done. rewrite Hj. auto.
Qed.

Lemma same_details_refl e : same_details e e.
Proof. by unfold same_details. Qed.

Lemma same_details_add_quota t d e e' :
  same_details e e' → same_details e (add_quota t d e').
Proof. unfold same_details. by destruct t. Qed.

Lemma step_exhibitions op db :
  exhibitions (step op db).2 = exhibitions db
  ∨ ∃ k e e', exhibitions db !! k = Some e ∧ same_details e e'
              ∧ exhibitions (step op db).2 = <[k := e']> (exhibitions db).
Proof.
  destruct op as [today newId p body | p i body | p i]; simpl.
  - unfold createBooking.
    destruct (exhibitions db !! _) as [e|] eqn:He; [ | by left ].
    destruct (parse_boothType _) as [t|]; [ | by left ].
    destruct (startDate e <? today); [ by left | ].
    destruct (js_gt _ _); [ by left | ].
    destruct (js_add_gt _ _ _); [ by left | ].
    destruct (body_amount body) as [a|]; [ | by left ].
    destruct (save_booking _ _); [ by left | ].
    destruct (save_exhibition _ _ _) as [|exs'] eqn:Hsave; [ by left | ].
    apply save_exhibition_inr in Hsave as [-> _].
    right. eexists _, e, _. split; [ exact He | ].
    split; [ | done ]. apply same_details_add_quota, same_details_refl.
  - unfold updateBooking.
    destruct (findOne p i (bookings db)) as [b|]; [ | by left ].
    destruct (parse_boothType _) as [t|]; [ | by left ].
    destruct (exhibitions db !! _) as [e|] eqn:He; [ | by left ].
    destruct (_ <? _); [ by left | ].
    destruct (save_exhibition _ _ _) as [|exs'] eqn:Hsave; [ by left | ].
    apply save_exhibition_inr in Hsave as [-> _].
    right. eexists _, e, _. split; [ exact He | ].
    split; [ | by destruct (save_booking _ _) ].
    do 2 apply same_details_add_quota. apply same_details_refl.
  - unfold deleteBooking.
    destruct (findOne p i (bookings db)) as [b|]; [ | by left ].
    destruct (exhibitions db !! _) as [e|] eqn:He; [ | by left ].
    destruct (save_exhibition _ _ _) as [|exs'] eqn:Hsave; [ by left | ].
    apply save_exhibition_inr in Hsave as [-> _].
    right. eexists _, e, _. split; [ exact He | ].
    split; [ | done ]. apply same_details_add_quota, same_details_refl.
Qed.

(** X13: a booking request never adds or removes an exhibition and never
    changes anything of an exhibition but its two quota counters: name,
    description, venue, start date, duration and poster are as before. *)
Theorem step_exhibitions_frame op db i :
  match exhibitions db !! i, exhibitions (step op db).2 !! i with
  | Some e, Some e' => same_details e e'
  | None, None => True
  | _, _ => False
  end.
Proof.
  destruct (step_exhibitions op db) as [-> | (k & e & e' & He & Hd & ->)].
  - destruct (exhibitions db !! i); [ apply same_details_refl | done ].
  - destruct (decide (k = i)) as [-> | Hne].
    + by rewrite lookup_insert_eq, He.
    + rewrite lookup_insert_ne by done.
      destruct (exhibitions db !! i); [ apply same_details_refl | done ].
Qed.

(** ** Bookings of a deleted exhibition *)

Lemma deleteExhibition_result i db :
  bookings (deleteExhibition i db).2 = bookings db
  ∧ exhibitions (deleteExhibition i db).2 !! i = None.
Proof.
  unfold deleteExhibition.
  destruct (exhibitions db !! i) eqn:Hi; simpl; [ | done ].
  by rewrite lookup_delete_eq.
Qed.

(** X14: once an exhibition is deleted, a booking that references it can
    still be read by whoever could access it (with a null exhibition) and
    deleted (answered 200, no counter touched), but every update of it with
    a known booth type is answered 404 'Exhibition not found', and every
    create request on the exhibition is answered 404; neither changes the
    store. *)
Theorem deleteExhibition_orphans i db j b :
  bookings db !! j = Some b →
  exhibition b = i →
  let db' := (deleteExhibition i db).2 in
  (∀ p, findOne p j (bookings db) = Some b →
        data (getBooking p j db')
        = Some {| pb_id := j; pb_booking := b; pb_exhibition := None |}
        ∧ (∀ body t, parse_boothType (upd_boothType body) = Some t →
                     updateBooking p j body db'
                     = (failure 404 "Exhibition not found", db'))
        ∧ deleteBooking p j db'
          = (ok_message "Booking deleted successfully",
             {| exhibitions := exhibitions db';
                bookings := delete j (bookings db) |}))
  ∧ (∀ today newId p body,
       body_exhibition body = i →
       createBooking today newId p body db'
       = (failure 404 ("Exhibition not found with id of " +:+ pretty i), db')).
Proof.
  intros Hj Hi db'.
  destruct (deleteExhibition_result i db) as [Hbs Hgone].
  fold db' in Hbs, Hgone. split.
  - intros p Hfind. pose proof Hfind as Hrole.
    apply findOne_Some in Hrole as [_ Hrole].
    split; [ | split ].
    + unfold getBooking, ok, populated. rewrite Hbs, Hj, Hi, Hgone.
      destruct (user_role p); simpl.
      * by rewrite andb_false_r.
      * by rewrite (Hrole eq_refl), Nat.eqb_refl.
    + intros body t Ht. unfold updateBooking.
      by rewrite Hbs, Hfind, Ht, Hi, Hgone.
    + unfold deleteBooking. by rewrite Hbs, Hfind, Hi, Hgone.
  - intros today newId p body Hb. unfold createBooking.
    by rewrite Hb, Hgone.
Qed.

(** X15: deleting an exhibition that is not stored is answered 404 and
    changes nothing; in particular a second delete of the same exhibition
    is answered 404. *)
Theorem deleteExhibition_twice i db :
  (exhibitions db !! i = None →
   deleteExhibition i db = (failure 404 "Exhibition not found", db))
  ∧ deleteExhibition i (deleteExhibition i db).2
    = (failure 404 "Exhibition not found", (deleteExhibition i db).2).
Proof.
  split.
  - intros Hi. unfold deleteExhibition. by rewrite Hi.
  - destruct (deleteExhibition_result i db) as [_ Hgone].
    unfold deleteExhibition at 1. by rewrite Hgone.
Qed.

(** ** The totals of the middleware and of the static method *)

(** X16: for a stored booking, the total of the 'other' bookings that the
    [pre('save')] middleware computes (same user and exhibition, its own
    [_id] excluded) is the total of [checkTotalBooths] for that user and
    exhibition minus the booking's own amount. *)
Theorem others_total_is_total_minus_own (bs : gmap nat Booking) i b :
  bs !! i = Some b →
  sum_amount (match_user_except (user b) (exhibition b) i) bs
  = checkTotalBooths (user b) (exhibition b) bs - amount b.
Proof.
  intros Hi. rewrite sum_amount_except. unfold checkTotalBooths.
  rewrite (sum_amount_delete _ bs i b Hi).
  unfold contribution, match_user. rewrite !Nat.eqb_refl. simpl. lia.
Qed.

(** ** Reading bookings *)

(** X17: the list of [getBookings] holds, under each [_id], exactly what
    [getBooking] returns as data for that [_id] and caller: nothing for a
    missing booking or another member's booking, the populated booking
    otherwise. A booking is listed exactly when the caller's update and
    delete requests would find it, and [count] is the number of listed
    documents. *)
Theorem getBookings_agrees_with_getBooking p db j :
  bl_data (getBookings p db) !! j = data (getBooking p j db)
  ∧ (is_Some (bl_data (getBookings p db) !! j)
     ↔ is_Some (findOne p j (bookings db)))
  ∧ bl_count (getBookings p db) = size (bl_data (getBookings p db)).
Proof.
  unfold getBookings, getBooking, findOne, ok, populated. simpl.
  rewrite map_lookup_imap.
  destruct (bookings db !! j) as [b|] eqn:Hj; simpl.
  - destruct (user_role p); simpl.
    + rewrite andb_false_r. simpl.
      split; [ done | ]. split; [ | done ]. split; eauto.
    + destruct (Nat.eqb (user b) (user_id p)); simpl.
      * split; [ done | ]. split; [ | done ]. split; eauto.
      * split; [ done | ]. split; [ | done ].
        split; intros [? [=]].
  - split; [ done | ]. split; [ | done ]. split; intros [? [=]].
Qed.

(** ** Reading exhibitions *)

Lemma sum_amount_filter (P : nat → Booking → bool) k (bs : gmap nat Booking) :
  sum_amount P (filter (λ kb, exhibition kb.2 = k) bs)
  = sum_amount (λ j b, Nat.eqb (exhibition b) k && P j b) bs.
Proof.
  induction bs as [|i x m Hi IH] using map_ind.
  - by rewrite map_filter_empty, !sum_amount_empty.
  - rewrite (sum_amount_insert _ m) by exact Hi.
    destruct (decide (exhibition x = k)) as [Hk | Hk].
    + rewrite map_filter_insert_True by done.
      rewrite sum_amount_insert; [ | by rewrite map_lookup_filter_None; left ].
      rewrite IH. unfold contribution.
      apply Nat.eqb_eq in Hk. by rewrite Hk.
    + rewrite map_filter_insert_False by done.
      rewrite delete_id by exact Hi. rewrite IH. unfold contribution.
      apply Nat.eqb_neq in Hk. rewrite Hk. simpl. lia.
Qed.

(** X18: [getExhibition] answers 404 for an id that is not the text of an
    ObjectId and for an exhibition that is not stored. For a stored
    exhibition it answers 200 with the document and, as its bookings,
    exactly the stored bookings that reference it; the booths of each type
    among them plus the counter of the type is the conserved quantity of
    the accounting. [getExhibitions] lists every stored exhibition the
    same way. *)
Theorem getExhibition_populates i db :
  er_status (getExhibition None db) = 404
  ∧ el_data (getExhibitions db) !! i = er_data (getExhibition (Some i) db)
  ∧ match exhibitions db !! i with
    | None =>
        getExhibition (Some i) db
        = exhibition_failure 404 "Exhibition not found"
    | Some e =>
        ∃ bs,
          getExhibition (Some i) db
          = exhibition_ok 200 {| ev_exhibition := e; ev_bookings := Some bs |}
          ∧ (∀ j b, bs !! j = Some b
                    ↔ bookings db !! j = Some b ∧ exhibition b = i)
          ∧ (∀ t, quota_plus_booked i t db
                  = Some (quota t e
                          + sum_amount
                              (λ _ b, BoothType_eqb (boothType b) t) bs))
    end.
Proof.
  split; [ done | ]. split.
  - unfold getExhibitions, getExhibition. simpl. rewrite map_lookup_imap.
    by destruct (exhibitions db !! i).
  - unfold getExhibition, quota_plus_booked.
    destruct (exhibitions db !! i) as [e|]; [ | done ].
    eexists. split; [ reflexivity | ]. split.
    + intros j b. rewrite map_lookup_filter_Some. done.
    + intros t. rewrite sum_amount_filter. done.
Qed.

(** ** Writing exhibitions *)

Lemma required_string_Some x v : required_string x = Some v → x = Some v ∧ v ≠ "".
Proof.
  unfold required_string. destruct x as [y|]; [ | discriminate ].
  destruct (String.eqb y "") eqn:Hy; [ discriminate | ].
  intros [= <-]. split; [ done | ]. by apply String.eqb_neq.
Qed.

Lemma new_exhibition_name body e :
  new_exhibition body = Some e →
  ∃ n, eb_name body = Some n ∧ name e = trim n ∧ name e ≠ "".
Proof.
  unfold new_exhibition.
  destruct (required_string (trim <$> eb_name body)) as [v|] eqn:Hn;
    [ | discriminate ].
  destruct (required_string (eb_description body)); [ | discriminate ].
  destruct (required_string (eb_venue body)); [ | discriminate ].
  destruct (eb_startDate body); [ | discriminate ].
  destruct (min_number 1 _); [ | discriminate ].
  destruct (min_number 0 (eb_smallBoothQuota body)); [ | discriminate ].
  destruct (min_number 0 (eb_bigBoothQuota body)); [ | discriminate ].
  destruct (required_string (eb_posterPicture body)); [ | discriminate ].
  intros [= <-]. simpl. apply required_string_Some in Hn as [Hn Hv].
  destruct (eb_name body) as [n|]; [ | discriminate ].
  injection Hn as <-. eauto.
Qed.

(** X19: for a body that passes the schema's validation and a free [_id],
    [createExhibition] answers 400 and stores nothing when the start date
    is before today (yesterday, for one), and answers 201 and stores the
    exhibition when the start date is today or later; the bookings are not
    touched. *)
Theorem createExhibition_start_date today newId body db e :
  new_exhibition body = Some e →
  exhibitions db !! newId = None →
  let r := createExhibition today newId body db in
  (startDate e < today →
   r = (inr (exhibition_failure 400
               "Start date cannot be earlier than current date"), db))
  ∧ (today ≤ startDate e →
     r = (inr (exhibition_ok 201 {| ev_exhibition := e; ev_bookings := None |}),
          {| exhibitions := <[newId := e]> (exhibitions db);
             bookings := bookings db |})).
Proof.
  intros He Hfresh. unfold createExhibition.
  destruct (new_exhibition_valid _ _ He) as (_ & _ & Hd).
  rewrite Hd. simpl. split; intros Hdate.
  - replace (startDate e <? today) with true
      by (symmetry; apply Z.ltb_lt; lia).
    done.
  - replace (startDate e <? today) with false
      by (symmetry; apply Z.ltb_ge; lia).
    by rewrite He, Hfresh.
Qed.

(** X20: whatever the body, [createExhibition] leaves the bookings and
    the stored exhibitions as they are and either stores nothing or adds,
    under the new [_id], one exhibition whose start date is today or
    later, whose duration is at least 1, whose counters are at least 0 and
    whose name is the trimmed name of the body and is not empty. *)
Theorem createExhibition_stores_valid today newId body db :
  let db' := (createExhibition today newId body db).2 in
  bookings db' = bookings db
  ∧ (db' = db
     ∨ ∃ e n,
         exhibitions db !! newId = None
         ∧ exhibitions db' = <[newId := e]> (exhibitions db)
         ∧ today ≤ startDate e ∧ 1 ≤ durationDay e
         ∧ 0 ≤ smallBoothQuota e ∧ 0 ≤ bigBoothQuota e
         ∧ eb_name body = Some n ∧ name e = trim n ∧ name e ≠ "").
Proof.
  unfold createExhibition.
  destruct (startDate_passed _ _) eqn:Hgate; [ by split; [ | left ] | ].
  destruct (new_exhibition body) as [e|] eqn:He; [ | by split; [ | left ] ].
  destruct (exhibitions db !! newId) eqn:Hfresh; [ by split; [ | left ] | ].
  split; [ done | ]. right.
  destruct (new_exhibition_valid _ _ He) as ([Hs Hg] & Hdur & Hd).
  destruct (new_exhibition_name _ _ He) as (n & Hn & Htrim & Hne).
  exists e, n. rewrite Hd in Hgate. simpl in Hgate. apply Z.ltb_ge in Hgate.
  done.
Qed.

(** X21: [updateExhibition] never touches the bookings nor any other
    exhibition, and changes nothing when the exhibition is not stored. A
    body whose start date is before today is answered 400 with nothing
    written, so the start date of a stored exhibition afterwards is its
    old one or today or later; its counters stay at least 0 when they
    were. *)
Theorem updateExhibition_frame today i body db :
  let r := updateExhibition today i body db in
  bookings r.2 = bookings db
  ∧ (∀ j, j ≠ i → exhibitions r.2 !! j = exhibitions db !! j)
  ∧ (exhibitions db !! i = None → r.2 = db)
  ∧ (∀ d, eb_startDate body = Some d → d < today →
          r = (inr (exhibition_failure 400
                      "Start date cannot be earlier than current date"), db))
  ∧ (∀ e, exhibitions db !! i = Some e →
          ∃ e', exhibitions r.2 !! i = Some e'
                ∧ (startDate e' = startDate e ∨ today ≤ startDate e')
                ∧ (valid_exhibition e → valid_exhibition e')).
Proof.
  unfold updateExhibition.
  destruct (startDate_passed today (eb_startDate body)) eqn:Hgate.
  { repeat split; try done. intros e He. exists e. auto. }
  destruct (update_refused body) eqn:Href.
  { repeat split; try done.
    - intros d Hd Hlt. rewrite Hd in Hgate. simpl in Hgate.
      apply Z.ltb_ge in Hgate. lia.
    - intros e He. exists e. auto. }
  destruct (exhibitions db !! i) as [e|] eqn:He.
  - split; [ done | ]. split.
    { intros j Hne. simpl. by rewrite lookup_insert_ne. }
    split; [ discriminate | ]. split.
    { intros d Hd Hlt. rewrite Hd in Hgate. simpl in Hgate.
      apply Z.ltb_ge in Hgate. lia. }
    intros ? [= <-]. exists (set_fields body e). simpl.
    rewrite lookup_insert_eq. split; [ done | ]. split.
    + destruct (eb_startDate body) as [d|]; simpl; [ | by left ].
      right. simpl in Hgate. by apply Z.ltb_ge.
    + by apply set_fields_valid.
  - repeat split; try done.
    intros d Hd Hlt. rewrite Hd in Hgate. simpl in Hgate.
    apply Z.ltb_ge in Hgate. lia.
Qed.

(** X22: an update of a stored exhibition with an empty body is answered
    200 with the stored document and leaves the store as it was. *)
Theorem updateExhibition_empty_body today i db e :
  exhibitions db !! i = Some e →
  updateExhibition today i empty_body db
  = (inr (exhibition_ok 200 {| ev_exhibition := e; ev_bookings := None |}), db).
Proof.
  intros He. unfold updateExhibition. simpl. rewrite He.
  assert (Hsame : set_fields empty_body e = e) by (by destruct e).
  rewrite Hsame, (insert_id _ _ _ He). by destruct db.
Qed.

(** ** The responses of the booking controller *)

Lemma well_formed_failure s msg :
  s = 400 ∨ s = 404 ∨ s = 500 → well_formed (failure s msg).
Proof.
  unfold well_formed. simpl. intros [-> | [-> | ->]];
    (split; [ auto 6 | split; [ discriminate | intros [[=] | [=]] ] ]).
Qed.

Lemma well_formed_createBooking_catch error :
  well_formed (createBooking_catch error).
Proof.
  unfold createBooking_catch, server_error.
  repeat case_match; apply well_formed_failure; auto.
Qed.

Lemma well_formed_updateBooking_catch error :
  well_formed (updateBooking_catch error).
Proof.
  unfold updateBooking_catch, server_error.
  case_match; apply well_formed_failure; auto.
Qed.

Lemma well_formed_ok s i db : s = 200 ∨ s = 201 → well_formed (ok s i db).
Proof.
  unfold well_formed. simpl. intros [-> | ->]; (split; [ auto | split; auto ]).
Qed.

Lemma well_formed_ok_message msg : well_formed (ok_message msg).
Proof. unfold well_formed. simpl. split; [ auto | split; auto ]. Qed.

(** X23: every answer of [createBooking], [updateBooking] and
    [deleteBooking] has status 200, 201, 400, 404 or 500 (never 401 or
    403) and its [success] flag is set exactly when the status is 200 or
    201. *)
Theorem step_response_well_formed op db : well_formed (step op db).1.
Proof.
  destruct op as [today newId p body | p i body | p i]; simpl.
  - unfold createBooking.
    repeat case_match; simpl;
      first [ apply well_formed_createBooking_catch
            | apply well_formed_failure; auto
            | apply well_formed_ok; auto ].
  - unfold updateBooking.
    repeat case_match; simpl;
      first [ apply well_formed_updateBooking_catch
            | apply well_formed_failure; auto
            | apply well_formed_ok; auto ].
  - unfold deleteBooking, server_error.
    repeat case_match; simpl;
      first [ apply well_formed_ok_message
            | apply well_formed_failure; auto ].
Qed.

(** ** Instances of the further properties on the example store *)

Lemma fresh_db_valid : valid_db fresh_db.
Proof.
  split.
  - intros i e Hi. unfold fresh_db in Hi. cbn [exhibitions] in Hi.
    apply lookup_singleton_Some in Hi as [_ <-].
    split; simpl; lia.
  - intros j b Hj. unfold fresh_db in Hj. cbn [bookings] in Hj.
    by rewrite lookup_empty in Hj.
Qed.

Lemma run_valid_db ops db : valid_db db → valid_db (run ops db).
Proof.
  revert db. induction ops as [|op ops IH]; intros db Hv; [ done | ].
  apply IH. by apply step_valid_db.
Qed.

Lemma two_bookings_db_valid : valid_db two_bookings_db.
Proof. apply run_valid_db, fresh_db_valid. Qed.

Lemma cap_ok_empty : cap_ok ∅.
Proof. intros u e. unfold checkTotalBooths. by rewrite sum_amount_empty. Qed.

Lemma createBooking_success_iff_witness :
  success (createBooking 50 1 alice (book "small" 3) fresh_db).1 = true
  ∧ createBooking 50 1 alice (book "small" 3) fresh_db
    = (let db' :=
         {| exhibitions := <[1%nat := add_quota small (-3) expo]>
                             (exhibitions fresh_db);
            bookings := <[1%nat := {| user := 7; exhibition := 1;
                                      boothType := small; amount := 3 |}]>
                          (bookings fresh_db) |} in
       (ok 201 1 db', db')).
Proof.
  destruct (createBooking_success_iff 50 1 alice (book "small" 3) fresh_db)
    as [Hiff Hout].
  assert (Hacc : exhibitions fresh_db !! body_exhibition (book "small" 3)
                 = Some expo
                 ∧ parse_boothType (body_boothType (book "small" 3))
                   = Some small
                 ∧ 50 ≤ startDate expo
                 ∧ body_amount (book "small" 3) = Some 3
                 ∧ 1 ≤ 3 ≤ quota small expo
                 ∧ checkTotalBooths (user_id alice)
                     (body_exhibition (book "small" 3)) (bookings fresh_db)
                   + 3 ≤ 6
                 ∧ valid_exhibition (add_quota small (- 3) expo)
                 ∧ bookings fresh_db !! 1%nat = None).
  { split; [ reflexivity | ]. split; [ reflexivity | ].
    split; [ simpl; lia | ]. split; [ reflexivity | ].
    split; [ simpl; lia | ]. split; [ vm_compute; discriminate | ].
    split; [ split; simpl; lia | reflexivity ]. }
  split.
  - apply Hiff. exists expo, small, 3. exact Hacc.
  - exact (proj1 (Hout expo small 3 Hacc)).
Defined.

Lemma createBooking_failure_writes_nothing_witness :
  (createBooking 50 3 alice (book "small" 1) two_bookings_db).2
  = two_bookings_db.
Proof.
  apply createBooking_failure_writes_nothing.
  - exact (proj1 two_bookings_db_valid).
  - vm_compute. reflexivity.
Defined.

Lemma createBooking_malformed_amount_witness :
  (createBooking 50 1 alice (book "small" 0) fresh_db).2 = fresh_db
  ∧ (createBooking 50 1 alice (book "small" 0) fresh_db).1 = server_error.
Proof.
  destruct (createBooking_malformed_amount 50 1 alice (book "small" 0)
              fresh_db) as (Hdb & _ & Hst).
  - intros a [= <-]. lia.
  - split; [ exact Hdb | ].
    apply (Hst expo small); first [ reflexivity | simpl; lia | vm_compute; discriminate ].
Defined.

Lemma createBooking_duplicate_id_witness :
  createBooking 50 1 bob (book "small" 1) two_bookings_db
  = (failure 400 "Invalid booking request", two_bookings_db).
Proof.
  apply (createBooking_duplicate_id 50 1 bob (book "small" 1)
           two_bookings_db (add_quota small (-6) expo) small 1
           {| user := 7; exhibition := 1; boothType := small; amount := 3 |});
    first [ reflexivity | simpl; lia | vm_compute; discriminate
          | vm_compute; reflexivity ].
Defined.

Lemma createBooking_then_getBooking_witness :
  ∃ e t a,
    exhibitions fresh_db !! 1%nat = Some e
    ∧ parse_boothType (Some "big") = Some t
    ∧ Some 2 = Some a
    ∧ getBooking alice 5 (createBooking 50 5 alice (book "big" 2) fresh_db).2
      = {| status := 200; success := true; message := None;
           data := Some {| pb_id := 5;
                           pb_booking := {| user := 7; exhibition := 1;
                                            boothType := t; amount := a |};
                           pb_exhibition := Some (add_quota t (- a) e) |} |}
    ∧ data (createBooking 50 5 alice (book "big" 2) fresh_db).1
      = data (getBooking alice 5
                (createBooking 50 5 alice (book "big" 2) fresh_db).2).
Proof.
  apply (createBooking_then_getBooking 50 5 alice (book "big" 2) fresh_db).
  vm_compute. reflexivity.
Defined.

Lemma createBooking_then_deleteBooking_witness :
  deleteBooking alice 5 (createBooking 50 5 alice (book "big" 2) fresh_db).2
  = (ok_message "Booking deleted successfully", fresh_db).
Proof.
  apply (createBooking_then_deleteBooking 50 5 alice (book "big" 2) fresh_db).
  vm_compute. reflexivity.
Defined.

Lemma deleteBooking_twice_witness :
  deleteBooking root 1 (deleteBooking alice 1 two_bookings_db).2
  = (failure 404 "Booking not found", (deleteBooking alice 1 two_bookings_db).2).
Proof.
  apply (proj2 (deleteBooking_twice alice root 1 two_bookings_db)).
  vm_compute. reflexivity.
Defined.

Lemma updateBooking_twice_witness :
  updateBooking alice 1 (change "big" 2)
    (updateBooking alice 1 (change "big" 2) two_bookings_db).2
  = (ok 200 1 (updateBooking alice 1 (change "big" 2) two_bookings_db).2,
     (updateBooking alice 1 (change "big" 2) two_bookings_db).2).
Proof.
  apply (updateBooking_twice alice 1 (change "big" 2) two_bookings_db).
  vm_compute. reflexivity.
Defined.

Lemma updateBooking_without_amount_witness :
  (updateBooking alice 1 {| upd_boothType := Some "big"; upd_amount := Some 0 |}
     two_bookings_db).1
  = ok 200 1
      {| exhibitions :=
           <[1%nat := add_quota big (-3) (add_quota small (-3) expo)]>
             (exhibitions two_bookings_db);
         bookings :=
           <[1%nat := {| user := 7; exhibition := 1; boothType := big;
                         amount := 3 |}]> (bookings two_bookings_db) |}.
Proof.
  destruct (updateBooking_without_amount alice 1 big (Some 0) two_bookings_db
              {| user := 7; exhibition := 1; boothType := small; amount := 3 |}
              (add_quota small (-6) expo)) as [Hr _];
    [ vm_compute; reflexivity | vm_compute; reflexivity | by right
    | split; simpl; lia | simpl; lia | simpl; lia | ].
  cbn [boothType_name] in Hr. rewrite Hr. vm_compute. reflexivity.
Defined.

Lemma updateBooking_negative_amount_witness :
  (updateBooking alice 1 (change "small" (-5)) two_bookings_db).1 = server_error
  ∧ quota small <$> exhibitions
                      (updateBooking alice 1 (change "small" (-5))
                         two_bookings_db).2 !! 1%nat
    = Some 12.
Proof.
  destruct (updateBooking_negative_amount alice 1 (change "small" (-5))
              two_bookings_db
              {| user := 7; exhibition := 1; boothType := small; amount := 3 |}
              small (add_quota small (-6) expo) (-5)) as (Hr & _ & _);
    [ vm_compute; reflexivity | reflexivity | vm_compute; reflexivity
    | split; simpl; lia | simpl; lia | reflexivity | lia | ].
  rewrite Hr. vm_compute. done.
Defined.

Lemma serve_all_invariants_witness :
  let db := serve_all
              [CreateExhibition 50 2
                 {| eb_name := Some " Fair "; eb_description := Some "d";
                    eb_venue := Some "v"; eb_startDate := Some 60;
                    eb_durationDay := Some 1; eb_smallBoothQuota := Some 2;
                    eb_bigBoothQuota := Some 0; eb_posterPicture := Some "p" |};
               OnBooking (Create 50 1 alice
                            {| body_exhibition := 2;
                               body_boothType := Some "small";
                               body_amount := Some 2 |});
               OnBooking (Update alice 1 (change "big" 7));
               UpdateExhibition 50 2
                 {| eb_name := None; eb_description := None; eb_venue := None;
                    eb_startDate := None; eb_durationDay := None;
                    eb_smallBoothQuota := Some 9; eb_bigBoothQuota := None;
                    eb_posterPicture := None |};
               DeleteExhibition 1] fresh_db in
  valid_db db ∧ cap_ok (bookings db).
Proof.
  apply serve_all_invariants.
  - exact fresh_db_valid.
  - exact cap_ok_empty.
Defined.

Lemma step_keeps_owner_and_exhibition_witness :
  match bookings (step (Update root 2 (change "big" 1)) two_bookings_db).2
        !! 2%nat with
  | Some b' =>
      user b' = 7%nat ∧ exhibition b' = 1%nat
      ∧ (b' = {| user := 7; exhibition := 1; boothType := small; amount := 3 |}
         ∨ ∃ p body, Update root 2 (change "big" 1) = Update p 2 body)
  | None => ∃ p, Update root 2 (change "big" 1) = Delete p 2
  end.
Proof.
  apply (step_keeps_owner_and_exhibition (Update root 2 (change "big" 1))
           two_bookings_db 2
           {| user := 7; exhibition := 1; boothType := small; amount := 3 |}).
  vm_compute. reflexivity.
Defined.

Lemma deleteExhibition_orphans_witness :
  let db' := (deleteExhibition 1 two_bookings_db).2 in
  updateBooking alice 1 (change "big" 1) db'
  = (failure 404 "Exhibition not found", db')
  ∧ status (deleteBooking alice 1 db').1 = 200
  ∧ status (createBooking 50 9 alice (book "small" 1) db').1 = 404.
Proof.
  intros db'.
  destruct (deleteExhibition_orphans 1 two_bookings_db 1
              {| user := 7; exhibition := 1; boothType := small; amount := 3 |})
    as [Hown Hcreate]; [ vm_compute; reflexivity | reflexivity | ].
  destruct (Hown alice) as (_ & Hupd & Hdel); [ vm_compute; reflexivity | ].
  split; [ exact (Hupd (change "big" 1) big eq_refl) | ].
  split.
  - fold db' in Hdel. by rewrite Hdel.
  - fold db' in Hcreate.
    by rewrite (Hcreate 50 9%nat alice (book "small" 1) eq_refl).
Defined.

Lemma deleteExhibition_twice_witness :
  deleteExhibition 4 two_bookings_db
  = (failure 404 "Exhibition not found", two_bookings_db).
Proof.
  apply (proj1 (deleteExhibition_twice 4 two_bookings_db)).
  vm_compute. reflexivity.
Defined.

Lemma others_total_is_total_minus_own_witness :
  let b := {| user := 7; exhibition := 1; boothType := small; amount := 3 |} in
  sum_amount (match_user_except (user b) (exhibition b) 2)
             (bookings two_bookings_db)
  = checkTotalBooths (user b) (exhibition b) (bookings two_bookings_db)
    - amount b.
Proof.
  intros b. apply others_total_is_total_minus_own. vm_compute. reflexivity.
Defined.

Lemma getBookings_agrees_with_getBooking_witness :
  bl_data (getBookings bob two_bookings_db) !! 1%nat = None
  ∧ is_Some (bl_data (getBookings alice two_bookings_db) !! 1%nat).
Proof.
  split.
  - rewrite (proj1 (getBookings_agrees_with_getBooking bob two_bookings_db 1)).
    vm_compute. reflexivity.
  - apply (proj1 (proj2 (getBookings_agrees_with_getBooking alice
                           two_bookings_db 1))).
    vm_compute. eauto.
Defined.

Lemma getExhibition_populates_witness :
  el_data (getExhibitions two_bookings_db) !! 1%nat
  = er_data (getExhibition (Some 1%nat) two_bookings_db)
  ∧ er_status (getExhibition (Some 3%nat) two_bookings_db) = 404.
Proof.
  destruct (getExhibition_populates 1 two_bookings_db) as (_ & Hlist & _).
  destruct (getExhibition_populates 3 two_bookings_db) as (_ & _ & Hmiss).
  split; [ exact Hlist | ].
  change (exhibitions two_bookings_db !! 3%nat) with (@None Exhibition) in Hmiss.
  by rewrite Hmiss.
Defined.

Lemma createExhibition_start_date_witness :
  let stored d :=
    {| name := "Book fair"; description := "Books"; venue := "Hall B";
       startDate := d; durationDay := 2; smallBoothQuota := 4;
       bigBoothQuota := 0;
       posterPicture := "https://example.org/fair.png" |} in
  createExhibition 50 2 (fair 49) fresh_db
  = (inr (exhibition_failure 400
            "Start date cannot be earlier than current date"), fresh_db)
  ∧ createExhibition 50 2 (fair 50) fresh_db
    = (inr (exhibition_ok 201 {| ev_exhibition := stored 50;
                                 ev_bookings := None |}),
       {| exhibitions := <[2%nat := stored 50]> (exhibitions fresh_db);
          bookings := bookings fresh_db |}).
Proof.
  intros stored.
  destruct (createExhibition_start_date 50 2 (fair 49) fresh_db (stored 49))
    as [Hpast _]; [ vm_compute; reflexivity | reflexivity | ].
  destruct (createExhibition_start_date 50 2 (fair 50) fresh_db (stored 50))
    as [_ Htoday]; [ vm_compute; reflexivity | reflexivity | ].
  split; [ apply Hpast; simpl; lia | apply Htoday; simpl; lia ].
Defined.

Lemma updateExhibition_frame_witness :
  updateExhibition 50 1 (fair 49) two_bookings_db
  = (inr (exhibition_failure 400
            "Start date cannot be earlier than current date"),
     two_bookings_db)
  ∧ bookings (updateExhibition 50 1 (fair 70) two_bookings_db).2
    = bookings two_bookings_db.
Proof.
  destruct (updateExhibition_frame 50 1 (fair 49) two_bookings_db)
    as (_ & _ & _ & Hgate & _).
  destruct (updateExhibition_frame 50 1 (fair 70) two_bookings_db)
    as (Hbs & _).
  split; [ | exact Hbs ].
  apply (Hgate 49); [ reflexivity | lia ].
Defined.

Lemma updateExhibition_empty_body_witness :
  updateExhibition 50 1 empty_body two_bookings_db
  = (inr (exhibition_ok 200 {| ev_exhibition := add_quota small (-6) expo;
                               ev_bookings := None |}),
     two_bookings_db).
Proof.
  apply updateExhibition_empty_body. vm_compute. reflexivity.
Defined.

Lemma quota_conserved_when_all_or_nothing_witness :
  quota_plus_booked 1 small
    (run [Create 50 1 alice (book "small" 3);
          Create 50 2 alice (book "small" 4);
          Update alice 1 (change "big" 2);
          Delete alice 1] fresh_db)
  = quota_plus_booked 1 small fresh_db.
Proof.
  apply quota_conserved_when_all_or_nothing.
  - exact fresh_db_valid.
  - vm_compute. repeat split; auto.
Defined.

Lemma updateBooking_insufficient_quota_witness :
  updateBooking alice 1 (change "small" 8) two_bookings_db
  = (failure 400 "Not enough small booths available", two_bookings_db).
Proof.
  apply (updateBooking_insufficient_quota alice 1 (change "small" 8)
           two_bookings_db
           {| user := 7; exhibition := 1; boothType := small; amount := 3 |}
           small (add_quota small (-6) expo));
    [ vm_compute; reflexivity | reflexivity | vm_compute; reflexivity
    | vm_compute; reflexivity ].
Defined.

Lemma updateBooking_commit_witness :
  (updateBooking alice 1 (change "big" 2) two_bookings_db).2
  = {| exhibitions :=
         <[1%nat := add_quota big (-2) (add_quota small (-3) expo)]>
           (exhibitions two_bookings_db);
       bookings :=
         <[1%nat := {| user := 7; exhibition := 1; boothType := big;
                       amount := 2 |}]> (bookings two_bookings_db) |}.
Proof.
  rewrite (updateBooking_commit alice 1 (change "big" 2) two_bookings_db
             {| user := 7; exhibition := 1; boothType := small; amount := 3 |}
             big (add_quota small (-6) expo));
    [ vm_compute; reflexivity | vm_compute; reflexivity | reflexivity
    | vm_compute; reflexivity | vm_compute; discriminate
    | split; vm_compute; discriminate | vm_compute; discriminate
    | right; vm_compute; discriminate ].
Defined.

Lemma updateBooking_cap_rejected_witness :
  updateBooking alice 1 (change "big" 4) two_bookings_db
  = (failure 400 "Total number of booths cannot exceed 6 per exhibition",
     {| exhibitions :=
          <[1%nat := add_quota big (-4) (add_quota small (-3) expo)]>
            (exhibitions two_bookings_db);
        bookings := bookings two_bookings_db |}).
Proof.
  rewrite (updateBooking_cap_rejected alice 1 (change "big" 4) two_bookings_db
             {| user := 7; exhibition := 1; boothType := small; amount := 3 |}
             big (add_quota small (-6) expo));
    [ vm_compute; reflexivity | vm_compute; reflexivity | reflexivity
    | vm_compute; reflexivity | vm_compute; discriminate
    | split; vm_compute; discriminate | vm_compute; discriminate
    | vm_compute; discriminate | vm_compute; reflexivity ].
Defined.

(** ** Requests served at the same time *)

Lemma set_quota_add_quota t d e :
  set_quota t (quota t (add_quota t d e)) e = add_quota t d e.
Proof. by destruct t. Qed.

(** Served without interruption, the checks followed by the writes are
    [createBooking]. *)
Lemma createBooking_checks_then_writes today newId p body db :
  createBooking today newId p body db
  = match createBooking_checks today newId p body db with
    | inl r => (r, db)
    | inr adm => createBooking_writes newId p body adm db
    end.
Proof.
  unfold createBooking, createBooking_checks.
  destruct (exhibitions db !! body_exhibition body) as [e|] eqn:He; [ | done ].
  destruct (parse_boothType _) as [t|]; [ | done ].
  destruct (startDate e <? today); [ done | ].
  destruct (js_gt _ _); [ done | ].
  destruct (js_add_gt _ _ _); [ done | ].
  destruct (body_amount body) as [a|]; [ | done ].
  unfold save_booking. cbn [fields amount isNew _id].
  destruct (a <? 1); [ done | ].
  destruct (preSave _ _); [ done | ].
  unfold createBooking_writes.
  cbn [adm_exhibition adm_boothType adm_amount].
  destruct (bookings db !! newId); [ done | ].
  unfold save_exhibition. rewrite He.
  destruct (_ || _); [ done | ].
  by rewrite set_quota_add_quota.
Qed.

